(** * PyAutoArray: a shallow embedding of the checked operations

    The development follows the layout of the Python package:

    - [Py]            the fragment of Python the modelled code relies on
                      (exceptions, dynamically typed values, [in] on strings);
    - [Acs]           [autoarray/instruments/acs.py];
    - [MaskModel]     [autoarray/mask/mask.py];
    - [TransformerModel]  [autoarray/operators/transformer.py];
    - [InterferometerModel]  [autoarray/dataset/interferometer.py];
    - [WrapMat]       [autoarray/plot/wrap_mat/wrap_mat.py].

    Python floats are idealised as rationals ([Q]); where the code tests for
    not-a-number the float type is extended with an explicit NaN.  Every
    operation that can raise returns a [result]. *)

From Stdlib Require Import ZArith QArith Qround String Ascii List Bool Lia.
From stdpp Require Import base option list gmap strings.

Local Open Scope string_scope.

(* ===================================================================== *)
(** * The Python fragment *)
(* ===================================================================== *)

Module Py.

(** The exception classes raised by the modelled code: the [autoarray.exc]
    hierarchy and the built-in errors of the interpreter. *)
Inductive exn : Type :=
| ArrayException
| MaskException
| FrameException
| PlottingException
| DataException
| TypeError
| ValueError
| AttributeError
| KeyError
| RegionException.

(** A call either returns or raises. *)
Inductive result (A : Type) : Type :=
| Ok (a : A)
| Raise (e : exn).

Arguments Ok {A} a.
Arguments Raise {A} e.

Definition bind {A B : Type} (r : result A) (k : A -> result B) : result B :=
  match r with
  | Ok a => k a
  | Raise e => Raise e
  end.

Definition returns {A : Type} (r : result A) : Prop := exists a, r = Ok a.

Definition raises {A : Type} (r : result A) (e : exn) : Prop := r = Raise e.

(** [a in b] on two strings: [a] occurs in [b] as a contiguous substring. *)
Fixpoint str_in (a b : string) : bool :=
  String.prefix a b
  || match b with
     | EmptyString => false
     | String _ b' => str_in a b'
     end.

(** [a == b] on two strings. *)
Definition str_eq (a b : string) : bool := String.eqb a b.

(** The dynamically typed values that reach a [pixel_scales] argument or a
    keyword dictionary. *)
#[local] Unset Elimination Schemes.
Inductive pyval : Type :=
| PyNone
| PyInt (n : Z)
| PyFloat (x : Q)
| PyTuple (items : list pyval).
#[local] Set Elimination Schemes.

(** [type(v) is float] and [type(v) is tuple]. *)
Definition type_is_float (v : pyval) : bool :=
  match v with PyFloat _ => true | _ => false end.

Definition type_is_tuple (v : pyval) : bool :=
  match v with PyTuple _ => true | _ => false end.

(** The built-in [float(v)]. *)
Definition py_float (v : pyval) : result Q :=
  match v with
  | PyInt n => Ok (inject_Z n)
  | PyFloat x => Ok x
  | PyNone | PyTuple _ => Raise TypeError
  end.

End Py.

Import Py.

Declare Scope py_scope.
Notation "x <- r ;; k" := (bind r (fun x => k))
  (at level 100, r at next level, right associativity) : py_scope.
Local Open Scope py_scope.

(** ** More of the interpreter: indexing, slicing, comparison *)

Module PyMore.

(** The built-in errors of indexing and of division, beside [exn]. *)
Inductive error : Type :=
| Exn (e : exn)
| IndexError
| ZeroDivisionError.

(** The outcome of a call that may raise one of them. *)
Inductive outcome (A : Type) : Type :=
| Return (a : A)
| Throw (e : error).

Arguments Return {A} a.
Arguments Throw {A} e.

Definition lift {A : Type} (r : result A) : outcome A :=
  match r with
  | Ok a => Return a
  | Raise e => Throw (Exn e)
  end.

Definition obind {A B : Type} (r : outcome A) (k : A -> outcome B)
  : outcome B :=
  match r with
  | Return a => k a
  | Throw e => Throw e
  end.

(** [a == b] on values: numbers compare by value across [int] and
    [float], tuples item by item. *)
Fixpoint py_eq (a b : pyval) : bool :=
  match a, b with
  | PyNone, PyNone => true
  | PyInt x, PyInt y => Z.eqb x y
  | PyFloat x, PyFloat y => Qeq_bool x y
  | PyInt x, PyFloat y => Qeq_bool (inject_Z x) y
  | PyFloat x, PyInt y => Qeq_bool x (inject_Z y)
  | PyTuple xs, PyTuple ys =>
      (fix items (xs ys : list pyval) {struct xs} : bool :=
         match xs, ys with
         | [], [] => true
         | x :: xs', y :: ys' => py_eq x y && items xs' ys'
         | _, _ => false
         end) xs ys
  | _, _ => false
  end.

(** [v[i]] for a literal index [i] that is not negative: only a tuple can
    be indexed, and only below its length. *)
Definition py_getitem (v : pyval) (i : nat) : outcome pyval :=
  match v with
  | PyTuple items =>
      match nth_error items i with
      | Some x => Return x
      | None => Throw IndexError
      end
  | PyNone | PyInt _ | PyFloat _ => Throw (Exn TypeError)
  end.

(** A slice bound brought into [0 .. len]: a negative bound counts from the
    end. *)
Definition slice_bound (len : nat) (i : Z) : nat :=
  if (i <? 0)%Z then Z.to_nat (Z.max 0 (i + Z.of_nat len))
  else Nat.min (Z.to_nat i) len.

(** [l[lo:hi]]. *)
Definition py_slice {A : Type} (lo hi : Z) (l : list A) : list A :=
  let lo := slice_bound (length l) lo in
  let hi := slice_bound (length l) hi in
  firstn (hi - lo) (skipn lo l).

End PyMore.

Import PyMore.

(* ===================================================================== *)
(** * autoarray/instruments/acs.py *)
(* ===================================================================== *)

Module Acs.

(** [fits_hdu_from_quadrant_letter(quadrant_letter)]. *)
Definition fits_hdu_from_quadrant_letter (quadrant_letter : string) : result Z :=
  if str_eq quadrant_letter "A" || str_eq quadrant_letter "B" then Ok 1%Z
  else if str_eq quadrant_letter "C" || str_eq quadrant_letter "D" then Ok 4%Z
  else Raise FrameException.

(** [ExposureInfoACS]: the header values the unit conversion reads.
    [bscale] and [exposure_time] default to [None] in the constructor. *)
Record ExposureInfoACS : Type := {
  original_units : string;
  bscale : option Q;
  bzero : Q;
  exposure_time : option Q;
  hdu : Z
}.

(** A 2D array as the list of its rows. *)
Definition array_2d : Type := list (list Q).

(** [array * c] and [array + c] with a scalar [c] (NumPy broadcasting);
    a [None] operand raises [TypeError]. *)
Definition array_mul_scalar (a : array_2d) (c : option Q) : result array_2d :=
  match c with
  | Some c => Ok (map (map (fun x => x * c)%Q) a)
  | None => Raise TypeError
  end.

Definition array_add_scalar (a : array_2d) (c : Q) : array_2d :=
  map (map (fun x => x + c)%Q) a.

(** [ImageACS.array_converted_to_electrons_from_fits]; [array] is the raw
    array that [numpy_array_2d_from_fits] read from the file.  The method
    falls off its end, returning [None], when neither test succeeds. *)
Definition array_converted_to_electrons_from_fits
    (array : array_2d) (exposure_info : ExposureInfoACS)
  : result (option array_2d) :=
  if str_in (original_units exposure_info) "COUNTS" then
    scaled <- array_mul_scalar array (bscale exposure_info) ;;
    Ok (Some (array_add_scalar scaled (bzero exposure_info)))
  else if str_in (original_units exposure_info) "CPS" then
    timed <- array_mul_scalar array (exposure_time exposure_info) ;;
    scaled <- array_mul_scalar timed (bscale exposure_info) ;;
    Ok (Some (array_add_scalar scaled (bzero exposure_info)))
  else Ok None.

(** The elementwise formulas of the two conversions. *)
Definition counts_to_electrons (bscale bzero raw : Q) : Q :=
  (raw * bscale + bzero)%Q.

Definition cps_to_electrons (exposure_time bscale bzero raw : Q) : Q :=
  (raw * exposure_time * bscale + bzero)%Q.

(** [array_eps_to_counts(array_eps, bscale, bzero)].  (A zero [bscale]
    makes NumPy return infinities; the rational model has none, so the
    properties below assume a non-zero scale.) *)
Definition array_eps_to_counts (array_eps : array_2d) (bscale : option Q)
    (bzero : Q) : result array_2d :=
  match bscale with
  | None => Raise FrameException
  | Some bscale => Ok (map (map (fun x => ((x - bzero) / bscale)%Q)) array_eps)
  end.

(** [ExposureInfoACS.array_eps_to_counts(array_eps)]. *)
Definition ExposureInfoACS_array_eps_to_counts (self : ExposureInfoACS)
    (array_eps : array_2d) : result array_2d :=
  array_eps_to_counts array_eps (bscale self) (bzero self).

(** [array[r0:r1, c0:c1]] with bounds that are not negative. *)
Definition slice_2d (a : array_2d) (r0 r1 c0 c1 : nat) : array_2d :=
  map (py_slice (Z.of_nat c0) (Z.of_nat c1))
    (py_slice (Z.of_nat r0) (Z.of_nat r1) a).

(** Modelled from the spec: the instance [Array2D.manual(array,
    exposure_info, pixel_scales)] builds, of [autoarray.structures], missing
    from the sources: the array tagged with its exposure info and pixel
    scale. *)
Record Array2DACS : Type := {
  acs_array : array_2d;
  acs_exposure_info : option ExposureInfoACS;
  acs_pixel_scales : Q
}.

Section Quadrants.

(** [layout_util.rotate_array_from_roe_corner(array, roe_corner)], and the
    readers of [array_2d_util] and of the FITS headers. *)
Variable rotate_array_from_roe_corner : array_2d -> nat * nat -> array_2d.
Variable numpy_array_2d_from_fits : string -> Z -> array_2d.
Variable numpy_array_2d_from_fits_unscaled : string -> Z -> array_2d.
Variable exposure_info_from_fits : string -> Z -> ExposureInfoACS.

(** [Array2DACS.left(array_electrons, exposure_info)]. *)
Definition Array2DACS_left (array_electrons : array_2d)
    (exposure_info : option ExposureInfoACS) : Array2DACS :=
  let array_electrons := rotate_array_from_roe_corner array_electrons (1, 0) in
  {| acs_array := array_electrons;
     acs_exposure_info := exposure_info;
     acs_pixel_scales := 0.05%Q |}.

(** [Array2DACS.right(array_electrons, exposure_info)]. *)
Definition Array2DACS_right (array_electrons : array_2d)
    (exposure_info : option ExposureInfoACS) : Array2DACS :=
  let array_electrons := rotate_array_from_roe_corner array_electrons (1, 1) in
  {| acs_array := array_electrons;
     acs_exposure_info := exposure_info;
     acs_pixel_scales := 0.05%Q |}.

(** [Array2DACS.from_ccd(array_electrons, quadrant_letter, parallel_size,
    serial_size, exposure_info)].  [array_electrons] is [None] when the
    caller's conversion returned nothing; slicing it raises. *)
Definition Array2DACS_from_ccd (array_electrons : option array_2d)
    (quadrant_letter : string) (parallel_size serial_size : nat)
    (exposure_info : option ExposureInfoACS) : result Array2DACS :=
  if str_eq quadrant_letter "B" || str_eq quadrant_letter "C" then
    match array_electrons with
    | None => Raise TypeError
    | Some a =>
        Ok (Array2DACS_left (slice_2d a 0 parallel_size 0 serial_size)
              exposure_info)
    end
  else if str_eq quadrant_letter "A" || str_eq quadrant_letter "D" then
    match array_electrons with
    | None => Raise TypeError
    | Some a =>
        Ok (Array2DACS_right
              (slice_2d a 0 parallel_size serial_size (serial_size * 2))
              exposure_info)
    end
  else Raise FrameException.

(** [Array2DACS.from_fits(file_path, quadrant_letter)]. *)
Definition Array2DACS_from_fits (file_path quadrant_letter : string)
  : result Array2DACS :=
  hdu <- fits_hdu_from_quadrant_letter quadrant_letter ;;
  let array := numpy_array_2d_from_fits file_path hdu in
  Array2DACS_from_ccd (Some array) quadrant_letter 2068 2072 None.

(** [ImageACS.from_fits(file_path, quadrant_letter)]. *)
Definition ImageACS_from_fits (file_path quadrant_letter : string)
  : result Array2DACS :=
  hdu <- fits_hdu_from_quadrant_letter quadrant_letter ;;
  let exposure_info := exposure_info_from_fits file_path hdu in
  array <- array_converted_to_electrons_from_fits
             (numpy_array_2d_from_fits_unscaled file_path hdu) exposure_info ;;
  Array2DACS_from_ccd array quadrant_letter 2068 2072 (Some exposure_info).

End Quadrants.

(** ** Layout2DACS

    [autoarray.layout] is not among the sources: the [Region2D]
    constructor, which may reject the bounds it is given, and
    [Layout2D.rotated_from_roe_corner] are parameters. *)

(** The bounds [(y0, y1, x0, x1)] given to [reg.Region2D]. *)
Definition region_bounds : Type := (Z * Z * Z * Z)%type.


Section Layout.

Variables Region2D Layout2D : Type.
Variable Region2D_new : region_bounds -> result Region2D.
Variable rotated_from_roe_corner :
  nat * nat -> Z * Z -> Region2D -> Region2D -> result Layout2D.

(** [Layout2DACS.left(parallel_size, serial_size, serial_prescan_size,
    parallel_overscan_size)]. *)
Definition Layout2DACS_left (parallel_size serial_size serial_prescan_size
    parallel_overscan_size : Z) : result Layout2D :=
  parallel_overscan <-
    Region2D_new (parallel_size - parallel_overscan_size, parallel_size,
                  serial_prescan_size, serial_size)%Z;;
  serial_prescan <-
    Region2D_new (0, parallel_size, 0, serial_prescan_size)%Z;;
  rotated_from_roe_corner (1, 0) (parallel_size, serial_size)
    parallel_overscan serial_prescan.

(** [Layout2DACS.right(parallel_size, serial_size, parallel_overscan_size,
    serial_prescan_size)]. *)
Definition Layout2DACS_right (parallel_size serial_size
    parallel_overscan_size serial_prescan_size : Z) : result Layout2D :=
  parallel_overscan <-
    Region2D_new (parallel_size - parallel_overscan_size, parallel_size,
                  0, serial_size - serial_prescan_size)%Z;;
  serial_prescan <-
    Region2D_new (0, parallel_size, serial_size - serial_prescan_size,
                  serial_size)%Z;;
  rotated_from_roe_corner (1, 1) (parallel_size, serial_size)
    parallel_overscan serial_prescan.

(** [Layout2DACS.from_ccd(quadrant_letter, parallel_size, serial_size,
    serial_prescan_size, parallel_overscan_size)]; both calls pass their
    arguments by keyword. *)
Definition Layout2DACS_from_ccd (quadrant_letter : string)
    (parallel_size serial_size serial_prescan_size parallel_overscan_size : Z)
  : result Layout2D :=
  if str_eq quadrant_letter "B" || str_eq quadrant_letter "C" then
    Layout2DACS_left parallel_size serial_size serial_prescan_size
      parallel_overscan_size
  else if str_eq quadrant_letter "A" || str_eq quadrant_letter "D" then
    Layout2DACS_right parallel_size serial_size parallel_overscan_size
      serial_prescan_size
  else Raise FrameException.

End Layout.

Arguments Layout2DACS_left {Region2D Layout2D}.
Arguments Layout2DACS_right {Region2D Layout2D}.
Arguments Layout2DACS_from_ccd {Region2D Layout2D}.

End Acs.

(* ===================================================================== *)
(** * autoarray/mask/mask.py *)
(* ===================================================================== *)

Module MaskModel.

(** A boolean [numpy.ndarray]: its shape and its entries in row-major
    order. *)
Record ndarray : Type := {
  shape : list nat;
  data : list bool
}.

(** [len(mask.shape)]. *)
Definition ndim (a : ndarray) : nat := length (shape a).

(** [np.invert(mask)]. *)
Definition np_invert (a : ndarray) : ndarray :=
  {| shape := shape a; data := map negb (data a) |}.

(** The [mask] argument of [Mask.manual]: a nested Python list or an
    array. *)
Inductive mask_input : Type :=
| MaskList (rows : list (list bool))
| MaskArray (a : ndarray).

(** Whether a non-empty list of rows is rectangular. *)
Definition is_rectangular (rows : list (list bool)) : bool :=
  match rows with
  | [] => false
  | r :: rs => forallb (fun r' => Nat.eqb (length r') (length r)) rs
  end.

(** [np.asarray(mask).astype("bool")] on a list of rows: a rectangular list
    gives a 2D array; the empty list and a ragged list give a 1D array (of
    row objects, whose truth value is their non-emptiness). *)
Definition asarray_bool (rows : list (list bool)) : ndarray :=
  if is_rectangular rows then
    {| shape := [length rows; length (hd [] rows)]; data := concat rows |}
  else
    {| shape := [length rows];
       data := map (fun r => negb (Nat.eqb (length r) 0)) rows |}.

(** The instance [Mask.__new__] builds: the boolean array with the three
    attributes it attaches. *)
Record Mask : Type := {
  mask_array : ndarray;
  sub_size : Z;
  pixel_scales : pyval;
  origin : Q * Q
}.

(** [Mask.__new__(cls, mask, pixel_scales, sub_size, origin)];
    [mask.astype("bool")] leaves a boolean array as it is. *)
Definition Mask_new (mask : ndarray) (pixel_scales : pyval) (sub_size : Z)
    (origin : Q * Q) : Mask :=
  {| mask_array := mask;
     sub_size := sub_size;
     pixel_scales := pixel_scales;
     origin := origin |}.

(** The first statement of [Mask.manual]:
<<
    if type(mask) is list:
        mask = np.asarray(mask).astype("bool")
>> *)
Definition mask_as_ndarray (mask : mask_input) : ndarray :=
  match mask with
  | MaskList rows => asarray_bool rows
  | MaskArray a => a
  end.

(** [Mask.manual(mask, pixel_scales, sub_size, origin, invert)]. *)
Definition manual (mask : mask_input) (pixel_scales : pyval) (sub_size : Z)
    (origin : Q * Q) (invert : bool) : result Mask :=
  let mask := mask_as_ndarray mask in
  let mask := if invert then np_invert mask else mask in
  let pixel_scales :=
    if type_is_float pixel_scales
    then PyTuple [pixel_scales; pixel_scales]
    else pixel_scales in
  if negb (Nat.eqb (ndim mask) 2) then Raise MaskException
  else Ok (Mask_new mask pixel_scales sub_size origin).

(** The array [manual] wraps once its dimension check has passed. *)
Definition manual_array (m : mask_input) (invert : bool) : ndarray :=
  if invert then np_invert (mask_as_ndarray m) else mask_as_ndarray m.

(** The truth value of the class object [int]: the right operand of
    [type(pixel_scales) is float or int]. *)
Definition truth_of_class_int : bool := true.

(** The block that opens every geometric constructor:
<<
    if type(pixel_scales) is not tuple:
        if type(pixel_scales) is float or int:
            pixel_scales = (float(pixel_scales), float(pixel_scales))
>> *)
Definition geometric_pixel_scales (pixel_scales : pyval) : result pyval :=
  if negb (type_is_tuple pixel_scales) then
    if type_is_float pixel_scales || truth_of_class_int then
      x <- py_float pixel_scales ;;
      y <- py_float pixel_scales ;;
      Ok (PyTuple [PyFloat x; PyFloat y])
    else Ok pixel_scales
  else Ok pixel_scales.

Section Geometric.

(** The mask generators of [autoarray.util.mask_util], which the
    constructors call with the normalised [pixel_scales]. *)
Variable mask_circular_from :
  nat * nat -> pyval -> Q -> Q * Q -> ndarray.
Variable mask_circular_annular_from :
  nat * nat -> pyval -> Q -> Q -> Q * Q -> ndarray.

(** [Mask.circular(shape_2d, radius, pixel_scales, sub_size, origin, centre,
    invert)]. *)
Definition circular (shape_2d : nat * nat) (radius : Q) (pixel_scales : pyval)
    (sub_size : Z) (origin centre : Q * Q) (invert : bool) : result Mask :=
  pixel_scales <- geometric_pixel_scales pixel_scales ;;
  let mask := mask_circular_from shape_2d pixel_scales radius centre in
  manual (MaskArray mask) pixel_scales sub_size origin invert.

(** [Mask.circular_annular(shape_2d, inner_radius, outer_radius,
    pixel_scales, sub_size, origin, centre, invert)]. *)
Definition circular_annular (shape_2d : nat * nat)
    (inner_radius outer_radius : Q) (pixel_scales : pyval) (sub_size : Z)
    (origin centre : Q * Q) (invert : bool) : result Mask :=
  pixel_scales <- geometric_pixel_scales pixel_scales ;;
  let mask :=
    mask_circular_annular_from shape_2d pixel_scales inner_radius
      outer_radius centre in
  manual (MaskArray mask) pixel_scales sub_size origin invert.

End Geometric.

(** An all-[False] array of a given 2D shape: [np.full(shape, False)]. *)
Definition np_full_false (shape_2d : nat * nat) : ndarray :=
  {| shape := [fst shape_2d; snd shape_2d];
     data := repeat false (fst shape_2d * snd shape_2d) |}.

(** [Mask.unmasked(shape_2d, pixel_scales, sub_size, origin, invert)]. *)
Definition unmasked (shape_2d : nat * nat) (pixel_scales : pyval)
    (sub_size : Z) (origin : Q * Q) (invert : bool) : result Mask :=
  manual (MaskArray (np_full_false shape_2d)) pixel_scales sub_size origin
    invert.

(** [np.size(a)] and [np.sum(a)] on a boolean array: the number of entries
    its shape announces, and the number of [True] entries. *)
Definition np_size (a : ndarray) : nat := fold_right Nat.mul 1 (shape a).

Definition np_sum (a : ndarray) : nat :=
  length (filter (fun b : bool => b = true) (data a)).

(** An array holds as many entries as its shape announces. *)
Definition well_shaped (a : ndarray) : Prop := length (data a) = np_size a.

(** [Mask.pixels_in_mask]: [int(np.size(self) - np.sum(self))]. *)
Definition pixels_in_mask (self : Mask) : Z :=
  (Z.of_nat (np_size (mask_array self)) - Z.of_nat (np_sum (mask_array self)))%Z.

(** [Mask.is_all_true]. *)
Definition is_all_true (self : Mask) : bool :=
  Z.eqb (pixels_in_mask self) 0.

(** [Mask.shape_2d]: [self.shape]. *)
Definition shape_2d (self : Mask) : list nat := shape (mask_array self).

(** [Mask.is_all_false]:
    [self.pixels_in_mask == self.shape_2d[0] * self.shape_2d[1]]. *)
Definition is_all_false (self : Mask) : outcome bool :=
  match shape_2d self with
  | s0 :: s1 :: _ => Return (Z.eqb (pixels_in_mask self) (Z.of_nat (s0 * s1)))
  | _ => Throw IndexError
  end.

(** [Mask.pixel_scale]. *)
Definition pixel_scale (self : Mask) : outcome pyval :=
  obind (py_getitem (pixel_scales self) 0) (fun a =>
  obind (py_getitem (pixel_scales self) 1) (fun b =>
  if py_eq a b then py_getitem (pixel_scales self) 0
  else Throw (Exn MaskException))).

(** [value * bin_up_factor] with an integer factor. *)
Definition py_mul_int (v : pyval) (k : Z) : outcome pyval :=
  match v with
  | PyInt a => Return (PyInt (a * k))
  | PyFloat x => Return (PyFloat (x * inject_Z k))
  | PyTuple items => Return (PyTuple (concat (repeat items (Z.to_nat k))))
  | PyNone => Throw (Exn TypeError)
  end.

(** [Mask.binned_pixel_scales_from_bin_up_factor(bin_up_factor)]. *)
Definition binned_pixel_scales_from_bin_up_factor (self : Mask)
    (bin_up_factor : Z) : outcome pyval :=
  match pixel_scales self with
  | PyNone => Return PyNone
  | _ =>
      obind (py_getitem (pixel_scales self) 0) (fun a =>
      obind (py_mul_int a bin_up_factor) (fun a' =>
      obind (py_getitem (pixel_scales self) 1) (fun b =>
      obind (py_mul_int b bin_up_factor) (fun b' =>
      Return (PyTuple [a'; b'])))))
  end.

Section Binning.

(** [binning_util.bin_mask(mask, bin_up_factor)]. *)
Variable bin_mask : ndarray -> Z -> ndarray.

(** [Mask.binned_mask_from_bin_up_factor(bin_up_factor)]. *)
Definition binned_mask_from_bin_up_factor (self : Mask) (bin_up_factor : Z)
  : outcome Mask :=
  let binned_up_mask := bin_mask (mask_array self) bin_up_factor in
  obind (binned_pixel_scales_from_bin_up_factor self bin_up_factor)
    (fun pixel_scales =>
       Return (Mask_new binned_up_mask pixel_scales (sub_size self)
                 (origin self))).

End Binning.

(** [Mask.mask_sub_1]. *)
Definition mask_sub_1 (self : Mask) : Mask :=
  Mask_new (mask_array self) (pixel_scales self) 1%Z (origin self).

(** Modelled from the spec: the instance [Array.manual_2d(array,
    pixel_scales, sub_size, origin)] builds, of
    [autoarray.structures.arrays], missing from the sources: the native 2D
    values with the three attributes. *)
Record Array_2d : Type := {
  array_2d_values : list (list Q);
  array_2d_pixel_scales : pyval;
  array_2d_sub_size : Z;
  array_2d_origin : Q * Q
}.

(** [Mask.trimmed_array_from_padded_array_and_image_shape(padded_array,
    image_shape)]; [padded_in_2d_binned] is [padded_array.in_2d_binned]. *)
Definition trimmed_array_from_padded_array_and_image_shape (self : Mask)
    (padded_in_2d_binned : list (list Q)) (image_shape : Z * Z)
  : outcome Array_2d :=
  match shape (mask_array self) with
  | s0 :: s1 :: _ =>
      let pad_size_0 := (Z.of_nat s0 - fst image_shape)%Z in
      let pad_size_1 := (Z.of_nat s1 - snd image_shape)%Z in
      let trimmed_array :=
        map (py_slice (pad_size_1 / 2)%Z (Z.of_nat s1 - pad_size_1 / 2)%Z)
          (py_slice (pad_size_0 / 2)%Z (Z.of_nat s0 - pad_size_0 / 2)%Z
             padded_in_2d_binned) in
      Return {| array_2d_values := trimmed_array;
                array_2d_pixel_scales := pixel_scales self;
                array_2d_sub_size := 1%Z;
                array_2d_origin := origin self |}
  | _ => Throw IndexError
  end.

(** ** Pickling

    For [__reduce__] and [__setstate__] a mask is the array together with
    its instance dictionary [__dict__], which holds the three
    attributes. *)

Record MaskObject : Type := {
  object_array : ndarray;
  object_dict : gmap string pyval
}.

(** The object [Mask.__new__] leaves: the attributes it sets, by name. *)
Definition object_of_mask (m : Mask) : MaskObject :=
  {| object_array := mask_array m;
     object_dict :=
       <["sub_size" := PyInt (sub_size m)]>
         (<["pixel_scales" := pixel_scales m]>
            (<["origin" := PyTuple [PyFloat (fst (origin m));
                                    PyFloat (snd (origin m))]]> ∅)) |}.

(** The attributes [__array_finalize__] gives an array that does not come
    from a mask, as the one unpickling starts from: [sub_size = 1],
    [origin = (0.0, 0.0)], [pixel_scales = None]. *)
Definition finalize_defaults : gmap string pyval :=
  <["sub_size" := PyInt 1]>
    (<["origin" := PyTuple [PyFloat 0%Q; PyFloat 0%Q]]>
       (<["pixel_scales" := PyNone]> ∅)).

Section Pickle.

(** The state tuple of [numpy.ndarray.__reduce__], item by item, and
    [numpy.ndarray.__setstate__]. *)
Variable np_item : Type.
Variable ndarray_reduce_state : ndarray -> list np_item.
Variable ndarray_setstate : list np_item -> ndarray.

(** An item of the state tuple [Mask.__reduce__] returns. *)
Inductive state_item : Type :=
| NdarrayItem (x : np_item)
| ClassDict (d : gmap string pyval).

Definition ndarray_items (state : list state_item) : list np_item :=
  omap (fun it => match it with
                  | NdarrayItem x => Some x
                  | ClassDict _ => None
                  end) state.

(** [Mask.__reduce__]: the third component of the result, that is the
    parent's state followed by a copy of the instance dictionary. *)
Definition Mask_reduce_state (self : MaskObject) : list state_item :=
  app (map NdarrayItem (ndarray_reduce_state (object_array self)))
    [ClassDict (object_dict self)].

(** [Mask.__setstate__(state)]: every entry of [state[-1]] is set as an
    attribute, then the parent restores the array from [state[0:-1]]. *)
Definition Mask_setstate (self : MaskObject) (state : list state_item)
  : outcome MaskObject :=
  match last state with
  | None => Throw IndexError
  | Some (NdarrayItem _) => Throw (Exn AttributeError)
  | Some (ClassDict d) =>
      Return {| object_array :=
                  ndarray_setstate (ndarray_items (removelast state));
                object_dict := d ∪ object_dict self |}
  end.

End Pickle.

End MaskModel.

(* ===================================================================== *)
(** * autoarray/operators/transformer.py *)
(* ===================================================================== *)

Module TransformerModel.

(** The image a transformer receives.  [image_shape] is [image.shape];
    [in_1d_binned] is the packed one-value-per-pixel view of an [Array]
    structure ([None] for an object without that attribute, such as a bare
    [numpy.ndarray]); [image_values] are the entries in row-major order. *)
Record image : Type := {
  image_shape : list nat;
  image_values : list Q;
  in_1d_binned : option (list Q)
}.

(** Visibilities: one (real, imaginary) pair per sample. *)
Definition Visibilities : Type := list (Q * Q).

(** [np.stack((real, imag), axis=-1)] on two vectors, which must have the
    same length. *)
Definition np_stack (real imag : list Q) : result Visibilities :=
  if Nat.eqb (length real) (length imag) then Ok (combine real imag)
  else Raise ValueError.





Section Kernels.

(** The kernels of [transformer_util] that evaluate the trigonometric
    factors on each call, and the numerical back ends of the two fast
    variants (NumPy's FFT with SciPy's interpolation, and pynufft). *)
Variable real_visibilities_jit :
  list Q -> list (Q * Q) -> list (Q * Q) -> list Q.
Variable imag_visibilities_jit :
  list Q -> list (Q * Q) -> list (Q * Q) -> list Q.
Variable fft_interpolated : image -> list Q * list Q.
Variable nufft_forward_shifted : image -> list Q * list Q.




(** [TransformerFFT.visibilities_from_image]. *)
Definition fft_visibilities_from_image (im : image) : result Visibilities :=
  if negb (Nat.eqb (length (image_shape im)) 2) then Raise ArrayException
  else
    let '(real_visibilities, imag_visibilities) := fft_interpolated im in
    np_stack real_visibilities imag_visibilities.

(** [TransformerNUFFT.visibilities_from_image]. *)
Definition nufft_visibilities_from_image (im : image) : result Visibilities :=
  if negb (Nat.eqb (length (image_shape im)) 2) then Raise ArrayException
  else
    let '(real_visibilities, imag_visibilities) := nufft_forward_shifted im in
    np_stack real_visibilities imag_visibilities.

End Kernels.


(** ** Mapping matrices

    A mapping matrix is held as the list of its columns, one per source
    pixel, so that [mapping_matrix[:, j]] is the [j]-th column and
    [mapping_matrix.shape[1]] the number of columns. *)

(** [column.reshape(shape_2d[0], shape_2d[1])]: a bare 2D array, which
    needs as many entries as the shape announces. *)
Definition reshape_2d (column : list Q) (shape_2d : nat * nat) : result image :=
  if Nat.eqb (length column) (fst shape_2d * snd shape_2d) then
    Ok {| image_shape := [fst shape_2d; snd shape_2d];
          image_values := column;
          in_1d_binned := None |}
  else Raise ValueError.

(** [matrix[:, j] = values] on a matrix with [n] rows: the values need [n]
    entries, a single entry being broadcast. *)
Definition assign_column (n : nat) (values : list Q) : result (list Q) :=
  if Nat.eqb (length values) n then Ok values
  else
    match values with
    | [x] => Ok (repeat x n)
    | _ => Raise ValueError
    end.

Section MappingMatrices.

(** The variant's own [visibilities_from_image]. *)
Variable variant_visibilities_from_image : image -> result Visibilities.

(** The loop of [transformed_mapping_matrices_from_mapping_matrix] in
    [TransformerFFT] and [TransformerNUFFT], over the source pixels in
    order; [n_vis] is [self.uv_wavelengths.shape[0]] and [shape_2d] is
    [self.grid.shape_2d].  The result is the pair of the real and the
    imaginary transformed matrix. *)
Fixpoint transformed_columns (n_vis : nat) (shape_2d : nat * nat)
    (columns : list (list Q)) : result (list (list Q) * list (list Q)) :=
  match columns with
  | [] => Ok ([], [])
  | column :: rest =>
      im <- reshape_2d column shape_2d ;;
      visibilities <- variant_visibilities_from_image im ;;
      real_column <- assign_column n_vis (map fst visibilities) ;;
      imag_column <- assign_column n_vis (map snd visibilities) ;;
      matrices <- transformed_columns n_vis shape_2d rest ;;
      Ok (real_column :: fst matrices, imag_column :: snd matrices)
  end.

End MappingMatrices.

(** [TransformerFFT.transformed_mapping_matrices_from_mapping_matrix]. *)
Definition fft_transformed_mapping_matrices
    (fft_interpolated : image -> list Q * list Q) (n_vis : nat)
    (shape_2d : nat * nat) (mapping_matrix : list (list Q))
  : result (list (list Q) * list (list Q)) :=
  transformed_columns (fft_visibilities_from_image fft_interpolated) n_vis
    shape_2d mapping_matrix.

(** [TransformerNUFFT.transformed_mapping_matrices_from_mapping_matrix]. *)
Definition nufft_transformed_mapping_matrices
    (nufft_forward_shifted : image -> list Q * list Q) (n_vis : nat)
    (shape_2d : nat * nat) (mapping_matrix : list (list Q))
  : result (list (list Q) * list (list Q)) :=
  transformed_columns (nufft_visibilities_from_image nufft_forward_shifted)
    n_vis shape_2d mapping_matrix.

End TransformerModel.

(* ===================================================================== *)
(** * autoarray/dataset/interferometer.py *)
(* ===================================================================== *)

Module InterferometerModel.

(** ** Values *)

(** A float that may be not-a-number: [from_image] tests [np.isnan]. *)
Inductive pyfloat : Type :=
| Fin (q : Q)
| NaN.

Definition isnan (x : pyfloat) : bool :=
  match x with NaN => true | Fin _ => false end.

Definition fadd (x y : pyfloat) : pyfloat :=
  match x, y with
  | Fin a, Fin b => Fin (a + b)%Q
  | _, _ => NaN
  end.

(** Visibilities and their noise map: one (real, imaginary) pair per
    sample. *)
Definition Visibilities : Type := list (pyfloat * pyfloat).

(** Modelled from the spec: [Visibilities.full(fill_value, shape_1d)] of
    [autoarray.structures.visibilities], missing from the sources: the
    constant-valued instance with [shape_1d[0]] samples. *)
Definition Visibilities_full (fill_value : pyfloat) (n : nat) : Visibilities :=
  repeat (fill_value, fill_value) n.

(** [np.isnan(noise_map).any()]. *)
Definition any_isnan (v : Visibilities) : bool :=
  existsb (fun s => isnan (fst s) || isnan (snd s)) v.

(** The [Array] structure a simulator receives: its mask (with the 2D
    shape), its pixel scales and its packed values. *)
Record Array : Type := {
  array_mask : MaskModel.Mask;
  array_shape_2d : nat * nat;
  array_pixel_scales : pyval;
  array_values : list pyfloat
}.

(** Modelled from the spec: [Array.zeros(shape_2d, pixel_scales)] of
    [autoarray.structures.arrays], missing from the sources: an unmasked
    array of the given shape and pixel scales whose values are all zero. *)
Definition Array_zeros (shape_2d : nat * nat) (pixel_scales : pyval) : Array :=
  {| array_mask :=
       MaskModel.Mask_new (MaskModel.np_full_false shape_2d) pixel_scales 1%Z
         (0%Q, 0%Q);
     array_shape_2d := shape_2d;
     array_pixel_scales := pixel_scales;
     array_values := repeat (Fin 0%Q) (fst shape_2d * snd shape_2d) |}.

(** [image + background_sky_map]: NumPy's elementwise sum of the packed
    values, the result keeping the left operand's attributes; operands of
    different lengths raise unless one of them has a single entry, which is
    broadcast. *)
Definition array_add (a b : Array) : result Array :=
  let with_values v :=
    {| array_mask := array_mask a;
       array_shape_2d := array_shape_2d a;
       array_pixel_scales := array_pixel_scales a;
       array_values := v |} in
  if Nat.eqb (length (array_values a)) (length (array_values b)) then
    Ok (with_values
          (map (fun p => fadd (fst p) (snd p))
               (combine (array_values a) (array_values b))))
  else
    match array_values a, array_values b with
    | _, [y] => Ok (with_values (map (fun x => fadd x y) (array_values a)))
    | [x], _ => Ok (with_values (map (fun y => fadd x y) (array_values b)))
    | _, _ => Raise ValueError
    end.

(** What [from_image] uses of a transformer instance. *)
Record TransformerObj : Type := {
  transformer_uv_wavelengths : list (Q * Q);
  transformer_visibilities_from_image : Array -> result Visibilities
}.

(** An [Interferometer] as a value. *)
Record Interferometer : Type := {
  visibilities : Visibilities;
  noise_map : Visibilities;
  uv_wavelengths : list (Q * Q);
  positions : option (list (Q * Q));
  name : option string
}.

(** [AbstractSimulatorInterferometer]: the attributes [__init__] stores.
    [transformer_class] is called with the uv wavelengths and the image's
    mask. *)
Record SimulatorInterferometer : Type := {
  sim_uv_wavelengths : list (Q * Q);
  sim_exposure_time_map : option Array;
  sim_background_sky_map : option Array;
  sim_transformer_class :
    list (Q * Q) -> MaskModel.Mask -> result TransformerObj;
  sim_noise_sigma : option pyfloat;
  sim_noise_if_add_noise_false : pyfloat;
  sim_noise_seed : Z
}.

(** The background the simulator adds:
<<
    if self.background_sky_map is not None:
        background_sky_map = self.background_sky_map
    else:
        background_sky_map = arrays.Array.zeros(
            shape_2d=image.shape_2d, pixel_scales=image.pixel_scales)
>> *)
Definition background_sky_map_for (self : SimulatorInterferometer)
    (image : Array) : Array :=
  match sim_background_sky_map self with
  | Some background_sky_map => background_sky_map
  | None => Array_zeros (array_shape_2d image) (array_pixel_scales image)
  end.

Section Simulator.

(** [preprocess.data_with_gaussian_noise_added(data, sigma, seed)], which
    draws the noise from NumPy's random generator. *)
Variable data_with_gaussian_noise_added :
  Visibilities -> pyfloat -> Z -> Visibilities.

(** [AbstractSimulatorInterferometer.from_image(image, name)]. *)
Definition from_image (self : SimulatorInterferometer) (image : Array)
    (name : option string) : result Interferometer :=
  transformer <-
    sim_transformer_class self (sim_uv_wavelengths self) (array_mask image) ;;
  let background_sky_map := background_sky_map_for self image in
  image <- array_add image background_sky_map ;;
  visibilities <- transformer_visibilities_from_image transformer image ;;
  let '(visibilities, noise_map) :=
    match sim_noise_sigma self with
    | Some noise_sigma =>
        let visibilities :=
          data_with_gaussian_noise_added visibilities noise_sigma
            (sim_noise_seed self) in
        (visibilities, Visibilities_full noise_sigma (length visibilities))
    | None =>
        (visibilities,
         Visibilities_full (sim_noise_if_add_noise_false self)
           (length visibilities))
    end in
  if any_isnan noise_map then Raise DataException
  else
    Ok {| visibilities := visibilities;
          noise_map := noise_map;
          uv_wavelengths := transformer_uv_wavelengths transformer;
          positions := None;
          name := name |}.

End Simulator.

(** ** The object store

    [modified_visibilities_from_visibilities] copies and then mutates an
    object, so datasets and their arrays live in a store and refer to each
    other by location.  A NumPy array is an object of its own over a data
    buffer: two arrays (an array and a view of it) can be different
    objects on one buffer, so buffers are objects of the store too. *)

Definition loc : Type := positive.

Inductive obj : Type :=
| OBuffer (values : list Q)
| ONdarray (buffer : loc) (offset size : nat)
| OInterferometer (data noise_map uv_wavelengths : loc)
    (positions : option loc) (name : option string).

(** Allocation of a new object at an unused location. *)
Definition alloc (h : gmap loc obj) (o : obj) : gmap loc obj * loc :=
  let l := fresh (dom h) in (<[l := o]> h, l).

(** The values an array shows: [size] entries of its buffer from
    [offset] on. *)
Definition ndarray_values (h : gmap loc obj) (l : loc) : option (list Q) :=
  match h !! l with
  | Some (ONdarray b off len) =>
      match h !! b with
      | Some (OBuffer vals) => Some (take len (drop off vals))
      | _ => None
      end
  | _ => None
  end.

(** [copy.deepcopy] reaching an array: the copy recorded in the memo is
    reused, otherwise [ndarray.__deepcopy__] builds a new array that owns
    a new buffer holding the values the array shows (the copy of a view is
    not a view), and the memo is extended. *)
Definition deepcopy_ndarray (h : gmap loc obj) (memo : gmap loc loc) (l : loc)
  : option (gmap loc obj * gmap loc loc * loc) :=
  match memo !! l with
  | Some l' => Some (h, memo, l')
  | None =>
      vals ← ndarray_values h l;
      let '(h1, b') := alloc h (OBuffer vals) in
      let '(h2, l') := alloc h1 (ONdarray b' 0 (length vals)) in
      Some (h2, <[l := l']> memo, l')
  end.

Definition deepcopy_optional (h : gmap loc obj) (memo : gmap loc loc)
    (o : option loc) : option (gmap loc obj * gmap loc loc * option loc) :=
  match o with
  | None => Some (h, memo, None)
  | Some l =>
      '(h', memo', l') ← deepcopy_ndarray h memo l;
      Some (h', memo', Some l')
  end.

(** [copy.deepcopy(self)] on a dataset: every attribute is deep-copied
    under one memo (strings and [None] are immutable and shared), and a new
    dataset object holds the copies. *)
Definition deepcopy_interferometer (h : gmap loc obj) (self : loc)
  : option (gmap loc obj * loc) :=
  match h !! self with
  | Some (OInterferometer d n u p name) =>
      '(h1, m1, d') ← deepcopy_ndarray h ∅ d;
      '(h2, m2, n') ← deepcopy_ndarray h1 m1 n;
      '(h3, m3, p') ← deepcopy_optional h2 m2 p;
      '(h4, m4, u') ← deepcopy_ndarray h3 m3 u;
      Some (alloc h4 (OInterferometer d' n' u' p' name))
  | _ => None
  end.

(** The assignment [interferometer.data = visibilities]. *)
Definition set_data (h : gmap loc obj) (l visibilities : loc)
  : option (gmap loc obj) :=
  match h !! l with
  | Some (OInterferometer _ n u p name) =>
      Some (<[l := OInterferometer visibilities n u p name]> h)
  | _ => None
  end.

(** [AbstractInterferometer.modified_visibilities_from_visibilities]. *)
Definition modified_visibilities_from_visibilities (h : gmap loc obj)
    (self visibilities : loc) : option (gmap loc obj * loc) :=
  '(h1, interferometer) ← deepcopy_interferometer h self;
  h2 ← set_data h1 interferometer visibilities;
  Some (h2, interferometer).

(** The arrays a dataset object refers to. *)
Definition refs (h : gmap loc obj) (l : loc) : list loc :=
  match h !! l with
  | Some (OInterferometer d n u p _) =>
      d :: n :: u :: match p with Some p => [p] | None => [] end
  | _ => []
  end.

(** The buffer behind an array. *)
Definition buffer_of (h : gmap loc obj) (l : loc) : list loc :=
  match h !! l with
  | Some (ONdarray b _ _) => [b]
  | _ => []
  end.

(** The mutable state of a dataset: its arrays and the buffers behind
    them. *)
Definition state (h : gmap loc obj) (l : loc) : list loc :=
  refs h l ++ (refs h l ≫= buffer_of h).

(** Two datasets share mutable state when some array or some buffer
    belongs to both. *)
Definition shares_state (h : gmap loc obj) (a b : loc) : Prop :=
  exists l, l ∈ state h a /\ l ∈ state h b.

Definition is_ndarray (h : gmap loc obj) (l : loc) : Prop :=
  exists vals, ndarray_values h l = Some vals.

(** [l'] in [h'] is a copy of the array [l] of [h] made of new objects
    only: it shows the same values, and neither it nor its buffer is an
    object of [h]. *)
Definition fresh_copy (h h' : gmap loc obj) (l l' : loc) : Prop :=
  (l' ∉ dom h)
  /\ (exists vals, ndarray_values h l = Some vals
                   /\ ndarray_values h' l' = Some vals)
  /\ (forall b, b ∈ buffer_of h' l' -> b ∉ dom h).

(** The invariant of a deep copy in progress, started on the store [h0]:
    the store has only grown, and every memo entry sends an array of [h0]
    to a copy made of new objects. *)
Definition copy_inv (h0 h : gmap loc obj) (memo : gmap loc loc) : Prop :=
  h0 ⊆ h
  /\ forall l l', memo !! l = Some l' -> fresh_copy h0 h l l'.

(** The relation between an optional array and its copy. *)
Definition same_optional (h h' : gmap loc obj) (p p' : option loc) : Prop :=
  match p, p' with
  | Some q, Some q' => fresh_copy h h' q q'
  | None, None => True
  | _, _ => False
  end.

End InterferometerModel.

(* ===================================================================== *)
(** * autoarray/plot/wrap_mat/wrap_mat.py *)
(* ===================================================================== *)

Module WrapMat.

(** ** NumPy helpers *)

Definition Qmin2 (a b : Q) : Q := if Qle_bool a b then a else b.
Definition Qmax2 (a b : Q) : Q := if Qle_bool a b then b else a.

(** [array.min()] and [array.max()]; [array] is [None] in the tests that
    set both bounds by hand, and an empty array has no minimum. *)
Definition array_min (array : option (list Q)) : result Q :=
  match array with
  | None => Raise AttributeError
  | Some [] => Raise ValueError
  | Some (x :: l) => Ok (fold_left Qmin2 l x)
  end.

Definition array_max (array : option (list Q)) : result Q :=
  match array with
  | None => Raise AttributeError
  | Some [] => Raise ValueError
  | Some (x :: l) => Ok (fold_left Qmax2 l x)
  end.

(** [np.linspace(start, stop, 5)]. *)
Definition linspace5 (start stop : Q) : list Q :=
  let step := ((stop - start) / 4)%Q in
  app (map (fun i => (start + inject_Z i * step)%Q) [0; 1; 2; 3]%Z) [stop].

(** Rounding to the nearest integer, ties to even, as [np.round] does. *)
Definition round_half_even (x : Q) : Z :=
  let f := Qfloor x in
  match Qcompare (x - inject_Z f) (1 # 2) with
  | Lt => f
  | Gt => (f + 1)%Z
  | Eq => if Z.even f then f else (f + 1)%Z
  end.

(** [np.round(x, 2)] on one entry. *)
Definition np_round2 (x : Q) : Q :=
  (inject_Z (round_half_even (x * 100)) / 100)%Q.

(** [x.astype("int")] on one entry: truncation towards zero. *)
Definition astype_int (x : Q) : Z := Z.quot (Qnum x) (Zpos (Qden x)).

(** ** Cmap *)

(** The entries of [Cmap.kwargs] that [norm_from_array] reads. *)
Record Cmap : Type := {
  cmap_vmin : option Q;
  cmap_vmax : option Q;
  cmap_norm : string;
  cmap_linthresh : Q;
  cmap_linscale : Q
}.

(** The normalisation objects of [matplotlib.colors]. *)
Inductive Norm : Type :=
| Normalize (vmin vmax : Q)
| LogNorm (vmin vmax : Q)
| SymLogNorm (vmin vmax linthresh linscale : Q).

(** [Cmap.norm_from_array(array)]. *)
Definition norm_from_array (self : Cmap) (array : option (list Q))
  : result Norm :=
  vmin <- match cmap_vmin self with
          | None => array_min array
          | Some vmin => Ok vmin
          end ;;
  vmax <- match cmap_vmax self with
          | None => array_max array
          | Some vmax => Ok vmax
          end ;;
  if str_in (cmap_norm self) "linear" then Ok (Normalize vmin vmax)
  else if str_in (cmap_norm self) "log" then
    let vmin := if Qeq_bool vmin 0 then (1 # 10000)%Q else vmin in
    Ok (LogNorm vmin vmax)
  else if str_in (cmap_norm self) "symmetric_log" then
    Ok (SymLogNorm vmin vmax (cmap_linthresh self) (cmap_linscale self))
  else Raise PlottingException.

(** ** Keyword dictionaries *)

(** [args.replace(" ", "")]. *)
Fixpoint remove_spaces (s : string) : string :=
  match s with
  | EmptyString => EmptyString
  | String c s' =>
      if Ascii.eqb c " "%char then remove_spaces s'
      else String c (remove_spaces s')
  end.

(** [args.split(",")]. *)
Fixpoint split_commas (s : string) : list string :=
  match s with
  | EmptyString => [EmptyString]
  | String c s' =>
      if Ascii.eqb c ","%char then EmptyString :: split_commas s'
      else
        match split_commas s' with
        | [] => [String c EmptyString]
        | w :: ws => String c w :: ws
        end
  end.

(** The calls into matplotlib a colorbar makes, in the order made. *)
Inductive plt_call : Type :=
| CmScalarMappable (cmap : string)
| ScalarMappableSetArray (color_values : list Q)
| PltColorbar (mappable : bool) (ticks : option (list Q))
    (kwargs : gmap string pyval)
| AxSetYTickLabels (labels : list Q)
| AxTickParams (kwargs : gmap string pyval).

(** The calls that draw on the figure; building the scalar mappable does
    not. *)
Definition is_drawing_call (c : plt_call) : bool :=
  match c with
  | CmScalarMappable _ | ScalarMappableSetArray _ => false
  | PltColorbar _ _ _ | AxSetYTickLabels _ | AxTickParams _ => true
  end.

(** ** Colorbar *)

Record Colorbar : Type := {
  manual_tick_labels : option (list Q);
  manual_tick_values : option (list Q);
  colorbar_kwargs : gmap string pyval
}.

(** Exactly one of [manual_tick_values] and [manual_tick_labels] is
    supplied. *)
Definition exactly_one_supplied (self : Colorbar) : Prop :=
  (manual_tick_values self = None /\ manual_tick_labels self <> None)
  \/ (manual_tick_values self <> None /\ manual_tick_labels self = None).

Section Config.

(** The visualisation configuration: for a class name and a method name,
    the comma-separated names of the keyword arguments of that method. *)
Variable conf_args : string -> string -> string.

(** [AbstractWrapMat.kwargs_of_method(method_name, cls_name)]. *)
Definition kwargs_of_method (kwargs : gmap string pyval)
    (method_name cls_name : string) : gmap string pyval :=
  let args := split_commas (remove_spaces (conf_args cls_name method_name)) in
  list_to_map
    (omap (fun key => match kwargs !! key with
                      | Some v => Some (key, v)
                      | None => None
                      end) args).

Definition kwargs_colorbar (self : Colorbar) : gmap string pyval :=
  kwargs_of_method (colorbar_kwargs self) "colorbar" "Colorbar".

Definition kwargs_tick_params (self : Colorbar) : gmap string pyval :=
  kwargs_of_method (colorbar_kwargs self) "tick_params" "TickParams".

(** [Colorbar.set()]: the matplotlib calls made, or the exception. *)
Definition Colorbar_set (self : Colorbar) : result (list plt_call) :=
  match manual_tick_values self, manual_tick_labels self with
  | None, None =>
      Ok [PltColorbar false None (kwargs_colorbar self);
          AxTickParams (kwargs_tick_params self)]
  | Some values, Some labels =>
      Ok [PltColorbar false (Some values) (kwargs_colorbar self);
          AxSetYTickLabels labels;
          AxTickParams (kwargs_tick_params self)]
  | _, _ => Raise PlottingException
  end.

(** [Colorbar.set_with_values(cmap, color_values)]. *)
Definition Colorbar_set_with_values (self : Colorbar) (cmap : string)
    (color_values : list Q) : result (list plt_call) :=
  let cax := [CmScalarMappable cmap; ScalarMappableSetArray color_values] in
  match manual_tick_values self, manual_tick_labels self with
  | None, None =>
      Ok (app cax [PltColorbar true None (kwargs_colorbar self)])
  | Some values, Some labels =>
      Ok (app cax [PltColorbar true (Some values) (colorbar_kwargs self);
                   AxSetYTickLabels labels])
  | _, _ => Ok cax
  end.

End Config.

(** ** Units and ticks *)

Record Units : Type := {
  use_scaled : bool;
  conversion_factor : option Q;
  in_kpc : option bool
}.

(** The truth value of [units.in_kpc], which may be [None]. *)
Definition truth_in_kpc (u : Units) : bool :=
  match in_kpc u with
  | Some b => b
  | None => false
  end.

(** [x is None] and [x is not None]. *)
Definition is_none {A : Type} (x : option A) : bool :=
  match x with None => true | Some _ => false end.

Definition is_not_none {A : Type} (x : option A) : bool := negb (is_none x).

(** [value * units.conversion_factor]; a [None] factor raises. *)
Definition times_factor (value : Q) (factor : option Q) : result Q :=
  match factor with
  | Some factor => Ok (value * factor)%Q
  | None => Raise TypeError
  end.

(** The tick labels: integers in pixel units, floats otherwise. *)
Inductive tick_labels : Type :=
| IntLabels (l : list Z)
| FloatLabels (l : list Q).

(** [AbstractTicks.tick_values_in_units_from(array, min_value, max_value,
    units, use_defaults)]; [shape_2d] is [array.shape_2d].  The result is
    [None] when the method returns without a value. *)
Definition tick_values_in_units_from (manual_values : option (list Q))
    (shape_2d : nat * nat) (min_value max_value : Q) (units : Units)
    (use_defaults : bool) : result (option tick_labels) :=
  if use_defaults then Ok None
  else
    match manual_values with
    | Some manual_values => Ok (Some (FloatLabels manual_values))
    | None =>
        if negb (use_scaled units) then
          Ok (Some (IntLabels
                      (map astype_int
                         (linspace5 0 (inject_Z (Z.of_nat (fst shape_2d)))))))
        else if (use_scaled units && is_none (conversion_factor units))
                || negb (truth_in_kpc units) then
          Ok (Some (FloatLabels (map np_round2 (linspace5 min_value max_value))))
        else if use_scaled units && is_not_none (conversion_factor units) then
          lo <- times_factor min_value (conversion_factor units) ;;
          hi <- times_factor max_value (conversion_factor units) ;;
          Ok (Some (FloatLabels (map np_round2 (linspace5 lo hi))))
        else Raise PlottingException
    end.

(** ** Configuration merging *)

(** [AbstractWrapMat.__init__]: [self.kwargs = {**config_dict, **kwargs}];
    an explicit keyword overrides the configured one. *)
Definition AbstractWrapMat_init (config_dict kwargs : gmap string pyval)
  : gmap string pyval :=
  kwargs ∪ config_dict.

(** ** Tick positions *)

(** [np.linspace(start, stop, num)]. *)
Definition linspace (start stop : Q) (num : nat) : list Q :=
  match num with
  | 0 => []
  | 1 => [start]
  | S (S _ as div) =>
      let step := ((stop - start) / inject_Z (Z.of_nat div))%Q in
      app (map (fun i => (start + inject_Z (Z.of_nat i) * step)%Q) (seq 0 div))
        [stop]
  end.

(** [AbstractTicks.tick_values_from(min_value, max_value, use_defaults)];
    [None] when the method returns without a value. *)
Definition tick_values_from (manual_values : option (list Q))
    (min_value max_value : Q) (use_defaults : bool) : option (list Q) :=
  if negb use_defaults then
    match manual_values with
    | Some manual_values =>
        Some (linspace min_value max_value (length manual_values))
    | None => Some (linspace min_value max_value 5)
    end
  else None.

(** The number of labels. *)
Definition labels_length (l : tick_labels) : nat :=
  match l with
  | IntLabels l => length l
  | FloatLabels l => length l
  end.

(** The calls that set ticks and axis labels. *)
Inductive axis_call : Type :=
| PltYticks (ticks : option (list Q)) (labels : option tick_labels)
    (kwargs : gmap string pyval)
| PltXticks (ticks : option (list Q)) (labels : option tick_labels)
    (kwargs : gmap string pyval)
| PltYlabel (ylabel : string) (kwargs : gmap string pyval)
| PltXlabel (xlabel : string) (kwargs : gmap string pyval).

(** ** Axis labels *)

(** The two label classes, and the attributes of a label object. *)
Inductive label_class : Type := YLabelClass | XLabelClass.

Definition label_class_name (c : label_class) : string :=
  match c with
  | YLabelClass => "YLabel"
  | XLabelClass => "XLabel"
  end.

Record Label : Type := {
  label_cls : label_class;
  label_units : option string;
  manual_label : option string;
  label_kwargs : gmap string pyval
}.

(** [AbstractLabel.label_from_units(units)]. *)
Definition label_from_units (self : Label) (units : Units) : string :=
  match label_units self with
  | None =>
      match in_kpc units with
      | Some in_kpc => if in_kpc then "kpc" else "arcsec"
      | None => if use_scaled units then "scaled" else "pixels"
      end
  | Some u => u
  end.

(** ** Output *)

(** [os.path.join(a, b)] on POSIX paths; a [None] first component
    raises. *)
Definition ends_with_slash (a : string) : bool :=
  match String.rev a with
  | String c _ => Ascii.eqb c "/"%char
  | EmptyString => false
  end.

Definition path_join (a : option string) (b : string) : result string :=
  match a with
  | None => Raise TypeError
  | Some a =>
      if String.prefix "/" b then Ok b
      else if str_eq a "" || ends_with_slash a then Ok (a ++ b)
      else Ok (a ++ "/" ++ b)
  end.

(** The formatted text [f"{self.filename}"]: [None] prints as [None]. *)
Definition format_filename (filename : option string) : string :=
  match filename with
  | Some f => f
  | None => "None"
  end.

Record Output : Type := {
  output_path : option string;
  output_filename : option string;
  output_format : option string;
  output_bypass : bool
}.

(** What an output does. *)
Inductive output_call : Type :=
| PltShow
| PltSavefig (file : string)
| StructureOutputToFits (file : string).

(** [Output.format]. *)
Definition Output_format (self : Output) : string :=
  match output_format self with
  | None => "show"
  | Some f => f
  end.

(** [Output.filename_from_func(func)]; [func_name] is [func.__name__]. *)
Definition filename_from_func (self : Output) (func_name : string) : string :=
  match output_filename self with
  | None => func_name
  | Some f => f
  end.

(** [Output.to_figure(structure)]; [has_structure] tells whether
    [structure] is not [None]. *)
Definition to_figure (self : Output) (has_structure : bool)
  : result (list output_call) :=
  if negb (output_bypass self) then
    if str_eq (Output_format self) "show" then Ok [PltShow]
    else if str_eq (Output_format self) "png" then
      file <- path_join (output_path self)
                (format_filename (output_filename self) ++ ".png") ;;
      Ok [PltSavefig file]
    else if str_eq (Output_format self) "fits" then
      if has_structure then
        file <- path_join (output_path self)
                  (format_filename (output_filename self) ++ ".fits") ;;
        Ok [StructureOutputToFits file]
      else Ok []
    else Ok []
  else Ok [].

(** [Output.subplot_to_figure()]. *)
Definition subplot_to_figure (self : Output) : result (list output_call) :=
  if str_eq (Output_format self) "show" then Ok [PltShow]
  else if str_eq (Output_format self) "png" then
    file <- path_join (output_path self)
              (format_filename (output_filename self) ++ ".png") ;;
    Ok [PltSavefig file]
  else Ok [].

(** ** Figure *)

(** [Figure.aspect_from_shape_2d(shape_2d)]; the configured aspect is a
    string ([inl]) or a number ([inr]), and so is the result. *)
Definition aspect_from_shape_2d (aspect : string + Q) (shape_2d : nat * nat)
  : outcome (string + Q) :=
  match aspect with
  | inl name =>
      if str_in name "square" then
        if Nat.eqb (fst shape_2d) 0 then Throw ZeroDivisionError
        else
          Return (inr (inject_Z (Z.of_nat (snd shape_2d))
                       / inject_Z (Z.of_nat (fst shape_2d)))%Q)
      else Return (inl name)
  | inr _ => Return aspect
  end.

Section Drawing.

(** The configuration: the argument names of a method of a class, and the
    default keywords of a class for figures ([false]) and for subplots
    ([true]). *)
Variable conf_args : string -> string -> string.
Variable conf_dict : string -> bool -> gmap string pyval.

(** [YTicks.set(array, min_value, max_value, units, use_defaults)] and
    [XTicks.set]. *)
Definition YTicks_set (manual_values : option (list Q))
    (kwargs : gmap string pyval) (shape_2d : nat * nat)
    (min_value max_value : Q) (units : Units) (use_defaults : bool)
  : result (list axis_call) :=
  let ticks := tick_values_from manual_values min_value max_value use_defaults in
  labels <- tick_values_in_units_from manual_values shape_2d min_value
              max_value units use_defaults ;;
  Ok [PltYticks ticks labels (kwargs_of_method conf_args kwargs "ticks" "YTicks")].

Definition XTicks_set (manual_values : option (list Q))
    (kwargs : gmap string pyval) (shape_2d : nat * nat)
    (min_value max_value : Q) (units : Units) (use_defaults : bool)
  : result (list axis_call) :=
  let ticks := tick_values_from manual_values min_value max_value use_defaults in
  labels <- tick_values_in_units_from manual_values shape_2d min_value
              max_value units use_defaults ;;
  Ok [PltXticks ticks labels (kwargs_of_method conf_args kwargs "ticks" "XTicks")].

(** [AbstractLabel.kwargs_label]. *)
Definition kwargs_label (self : Label) : gmap string pyval :=
  kwargs_of_method conf_args (label_kwargs self) "label"
    (label_class_name (label_cls self)).

(** [YLabel.set(units, include_brackets)] and [XLabel.set], chosen by the
    object's class. *)
Definition Label_set (self : Label) (units : Units) (include_brackets : bool)
  : list axis_call :=
  match label_cls self with
  | YLabelClass =>
      match manual_label self with
      | Some manual_label => [PltYlabel manual_label (kwargs_label self)]
      | None =>
          if include_brackets then
            [PltYlabel ("y (" ++ label_from_units self units ++ ")")
               (kwargs_label self)]
          else [PltYlabel (label_from_units self units) (kwargs_label self)]
      end
  | XLabelClass =>
      match manual_label self with
      | Some manual_label => [PltXlabel manual_label (kwargs_label self)]
      | None =>
          if include_brackets then
            [PltXlabel ("x (" ++ label_from_units self units ++ ")")
               (kwargs_label self)]
          else [PltXlabel (label_from_units self units) (kwargs_label self)]
      end
  end.

(** The constructors [YLabel(units, manual_label, from_subplot_config,
    **kwargs)] and [XLabel(...)]. *)
Definition Label_new (cls : label_class) (units manual_label : option string)
    (from_subplot_config : bool) (kwargs : gmap string pyval) : Label :=
  {| label_cls := cls;
     label_units := units;
     manual_label := manual_label;
     label_kwargs :=
       AbstractWrapMat_init
         (conf_dict (label_class_name cls) from_subplot_config) kwargs |}.

(** [YLabel.sub(units, manual_label)]. *)
Definition YLabel_sub (units manual_label : option string) : Label :=
  Label_new YLabelClass units manual_label true ∅.

(** [XLabel.sub(units, manual_label)], which returns
    [YLabel(units=units, manual_label=manual_label,
    from_subplot_config=True)]. *)
Definition XLabel_sub (units manual_label : option string) : Label :=
  Label_new YLabelClass units manual_label true ∅.

End Drawing.

End WrapMat.

(* ===================================================================== *)
(** * Sample inputs *)
(* ===================================================================== *)

Module Samples.

(** An exposure in counts with [bscale = 2] and [bzero = 1], and the same
    exposure in counts per second with an exposure time of 5. *)
Definition exposure_counts : Acs.ExposureInfoACS :=
  {| Acs.original_units := "COUNTS";
     Acs.bscale := Some 2%Q;
     Acs.bzero := 1%Q;
     Acs.exposure_time := Some 5%Q;
     Acs.hdu := 1%Z |}.

Definition exposure_cps : Acs.ExposureInfoACS :=
  {| Acs.original_units := "CPS";
     Acs.bscale := Some 2%Q;
     Acs.bzero := 1%Q;
     Acs.exposure_time := Some 5%Q;
     Acs.hdu := 1%Z |}.

(** A 2 x 2 mask given as a nested list. *)
Definition rows_2x2 : MaskModel.mask_input :=
  MaskModel.MaskList [[true; false]; [false; true]].

(** A stand-in for the generators of [mask_util]: the unmasked array of the
    requested shape. *)
Definition unmasked_circular (shape_2d : nat * nat) (_ : pyval) (_ : Q)
    (_ : Q * Q) : MaskModel.ndarray :=
  MaskModel.np_full_false shape_2d.

Definition unmasked_annular (shape_2d : nat * nat) (_ : pyval) (_ _ : Q)
    (_ : Q * Q) : MaskModel.ndarray :=
  MaskModel.np_full_false shape_2d.





(** A transformer class whose instances return one visibility per pixel,
    with the pixel value as real part. *)
Definition pixel_transformer (uv : list (Q * Q)) (_ : MaskModel.Mask)
  : result InterferometerModel.TransformerObj :=
  Ok {| InterferometerModel.transformer_uv_wavelengths := uv;
        InterferometerModel.transformer_visibilities_from_image :=
          fun im =>
            Ok (map (fun x => (x, InterferometerModel.Fin 0%Q))
                  (InterferometerModel.array_values im)) |}.

(** A simulator with noise disabled and no background sky map. *)
Definition quiet_simulator : InterferometerModel.SimulatorInterferometer :=
  {| InterferometerModel.sim_uv_wavelengths := [(0%Q, 0%Q)];
     InterferometerModel.sim_exposure_time_map := None;
     InterferometerModel.sim_background_sky_map := None;
     InterferometerModel.sim_transformer_class := pixel_transformer;
     InterferometerModel.sim_noise_sigma := None;
     InterferometerModel.sim_noise_if_add_noise_false :=
       InterferometerModel.Fin 0.1%Q;
     InterferometerModel.sim_noise_seed := (-1)%Z |}.

(** A 1 x 2 image with values 1 and 2. *)
Definition image_1x2 : InterferometerModel.Array :=
  {| InterferometerModel.array_mask :=
       MaskModel.Mask_new (MaskModel.np_full_false (1, 2))
         (PyTuple [PyFloat 1%Q; PyFloat 1%Q]) 1%Z (0%Q, 0%Q);
     InterferometerModel.array_shape_2d := (1, 2);
     InterferometerModel.array_pixel_scales :=
       PyTuple [PyFloat 1%Q; PyFloat 1%Q];
     InterferometerModel.array_values :=
       [InterferometerModel.Fin 1%Q; InterferometerModel.Fin 2%Q] |}.

(** A noise generator that adds nothing. *)
Definition no_noise (v : InterferometerModel.Visibilities)
    (_ : InterferometerModel.pyfloat) (_ : Z)
  : InterferometerModel.Visibilities := v.

(** A store with one dataset at location 7 whose visibilities, noise map
    and uv wavelengths are the arrays at locations 4, 5 and 6, each over
    the whole of its own buffer at locations 1, 2 and 3. *)
Definition store_one_dataset : gmap InterferometerModel.loc
                                 InterferometerModel.obj :=
  <[7%positive := InterferometerModel.OInterferometer 4%positive 5%positive
                    6%positive None (Some "sma")]>
    (<[6%positive := InterferometerModel.ONdarray 3%positive 0 2]>
       (<[5%positive := InterferometerModel.ONdarray 2%positive 0 1]>
          (<[4%positive := InterferometerModel.ONdarray 1%positive 0 2]>
             (<[3%positive := InterferometerModel.OBuffer [7%Q; 8%Q]]>
                (<[2%positive := InterferometerModel.OBuffer [0.1%Q]]>
                   (<[1%positive := InterferometerModel.OBuffer [1%Q; 0%Q]]>
                      ∅)))))).

(** The same store with a further array at location 9 over a buffer of its
    own at location 8. *)
Definition store_with_new_visibilities : gmap InterferometerModel.loc
                                           InterferometerModel.obj :=
  <[9%positive := InterferometerModel.ONdarray 8%positive 0 2]>
    (<[8%positive := InterferometerModel.OBuffer [2%Q; 2%Q]]>
       store_one_dataset).

(** The store of the dataset with a further array at location 8 that is a
    view of the dataset's visibilities: another object over the buffer at
    location 1, showing its second entry. *)
Definition store_with_view : gmap InterferometerModel.loc
                               InterferometerModel.obj :=
  <[8%positive := InterferometerModel.ONdarray 1%positive 1 1]>
    store_one_dataset.

(** A colormap configured with the normalisation name [lin], which is none
    of the three documented names, and with manual bounds 0 and 1. *)
Definition cmap_lin : WrapMat.Cmap :=
  {| WrapMat.cmap_vmin := Some 0%Q;
     WrapMat.cmap_vmax := Some 1%Q;
     WrapMat.cmap_norm := "lin";
     WrapMat.cmap_linthresh := 2%Q;
     WrapMat.cmap_linscale := 1%Q |}.

(** The argument lists of a small visualisation configuration. *)
Definition small_conf (cls_name method_name : string) : string :=
  if str_eq method_name "colorbar" then "fraction, pad" else "labelsize".

(** A colorbar given tick values but no tick labels. *)
Definition colorbar_values_only : WrapMat.Colorbar :=
  {| WrapMat.manual_tick_labels := None;
     WrapMat.manual_tick_values := Some [0.25%Q; 0.5%Q; 0.75%Q];
     WrapMat.colorbar_kwargs :=
       <["fraction" := PyFloat 0.1%Q]> (<["pad" := PyFloat 0.5%Q]> ∅) |}.

(** Scaled units with a conversion factor of 2, in kpc. *)
Definition units_kpc : WrapMat.Units :=
  {| WrapMat.use_scaled := true;
     WrapMat.conversion_factor := Some 2%Q;
     WrapMat.in_kpc := Some true |}.

(** Stand-ins for the FITS readers and the rotation: a reader that returns
    a 2 x 4 readout whatever the file, a header reader that reports the
    units [ELECTRONS], and no rotation. *)
Definition readout_2x4 (_ : string) (_ : Z) : Acs.array_2d :=
  [[1%Q; 2%Q; 3%Q; 4%Q]; [5%Q; 6%Q; 7%Q; 8%Q]].

Definition header_electrons (_ : string) (hdu : Z) : Acs.ExposureInfoACS :=
  {| Acs.original_units := "ELECTRONS";
     Acs.bscale := Some 2%Q;
     Acs.bzero := 1%Q;
     Acs.exposure_time := Some 5%Q;
     Acs.hdu := hdu |}.

Definition no_rotation (a : Acs.array_2d) (_ : nat * nat) : Acs.array_2d := a.

(** A 4 x 4 padded array with distinct entries. *)
Definition padded_4x4 : list (list Q) :=
  [[1%Q; 2%Q; 3%Q; 4%Q]; [5%Q; 6%Q; 7%Q; 8%Q];
   [9%Q; 10%Q; 11%Q; 12%Q]; [13%Q; 14%Q; 15%Q; 16%Q]].

(** A stand-in for [binning_util.bin_mask]: the mask unchanged. *)
Definition bin_nothing (a : MaskModel.ndarray) (_ : Z) : MaskModel.ndarray := a.

(** A back end that returns two visibilities, the image's first two
    values, with zero imaginary parts. *)
Definition two_visibilities (im : TransformerModel.image) : list Q * list Q :=
  (firstn 2 (TransformerModel.image_values im), [0%Q; 0%Q]).

(** Pixel units, with the kpc conversion switched on. *)
Definition units_pixels_kpc : WrapMat.Units :=
  {| WrapMat.use_scaled := false;
     WrapMat.conversion_factor := None;
     WrapMat.in_kpc := Some true |}.

(** No configured default keywords. *)
Definition empty_conf_dict (_ : string) (_ : bool) : gmap string pyval := ∅.

(** An output to PNG with neither path nor file name. *)
Definition output_png_bare : WrapMat.Output :=
  {| WrapMat.output_path := None;
     WrapMat.output_filename := None;
     WrapMat.output_format := Some "png";
     WrapMat.output_bypass := false |}.

(** The same output with the path [plots]. *)
Definition output_png_plots : WrapMat.Output :=
  {| WrapMat.output_path := Some "plots";
     WrapMat.output_filename := None;
     WrapMat.output_format := Some "png";
     WrapMat.output_bypass := false |}.

(** A colormap with no manual bounds. *)
Definition cmap_auto : WrapMat.Cmap :=
  {| WrapMat.cmap_vmin := None;
     WrapMat.cmap_vmax := None;
     WrapMat.cmap_norm := "linear";
     WrapMat.cmap_linthresh := 2%Q;
     WrapMat.cmap_linscale := 1%Q |}.

(** A simulator whose noise is switched on with a NaN standard
    deviation. *)
Definition nan_simulator : InterferometerModel.SimulatorInterferometer :=
  {| InterferometerModel.sim_uv_wavelengths := [(0%Q, 0%Q)];
     InterferometerModel.sim_exposure_time_map := None;
     InterferometerModel.sim_background_sky_map := None;
     InterferometerModel.sim_transformer_class := pixel_transformer;
     InterferometerModel.sim_noise_sigma := Some InterferometerModel.NaN;
     InterferometerModel.sim_noise_if_add_noise_false :=
       InterferometerModel.Fin 0.1%Q;
     InterferometerModel.sim_noise_seed := 1%Z |}.

(** A region constructor that rejects a negative coordinate and an empty
    range of rows or columns, and keeps the bounds otherwise. *)
Definition region_checked (r : Acs.region_bounds)
  : result Acs.region_bounds :=
  let '(y0, y1, x0, x1) := r in
  if (y0 <? 0)%Z || (y1 <? 0)%Z || (x0 <? 0)%Z || (x1 <? 0)%Z then
    Raise RegionException
  else if (y1 <=? y0)%Z || (x1 <=? x0)%Z then Raise RegionException
  else Ok r.

(** A layout that records what it is built from. *)
Definition layout_record (roe_corner : nat * nat) (shape_native : Z * Z)
    (parallel_overscan serial_prescan : Acs.region_bounds)
  : result (nat * nat * (Z * Z) * Acs.region_bounds * Acs.region_bounds) :=
  Ok (roe_corner, shape_native, parallel_overscan, serial_prescan).

(** A background sky map over the 1 x 2 image, with levels 10 and 20. *)
Definition sky_1x2 : InterferometerModel.Array :=
  {| InterferometerModel.array_mask :=
       MaskModel.Mask_new (MaskModel.np_full_false (1, 2))
         (PyTuple [PyFloat 1%Q; PyFloat 1%Q]) 1%Z (0%Q, 0%Q);
     InterferometerModel.array_shape_2d := (1, 2);
     InterferometerModel.array_pixel_scales :=
       PyTuple [PyFloat 1%Q; PyFloat 1%Q];
     InterferometerModel.array_values :=
       [InterferometerModel.Fin 10%Q; InterferometerModel.Fin 20%Q] |}.

(** A simulator with noise disabled that adds that background. *)
Definition quiet_sky_simulator : InterferometerModel.SimulatorInterferometer :=
  {| InterferometerModel.sim_uv_wavelengths := [(0%Q, 0%Q)];
     InterferometerModel.sim_exposure_time_map := None;
     InterferometerModel.sim_background_sky_map := Some sky_1x2;
     InterferometerModel.sim_transformer_class := pixel_transformer;
     InterferometerModel.sim_noise_sigma := None;
     InterferometerModel.sim_noise_if_add_noise_false :=
       InterferometerModel.Fin 0.1%Q;
     InterferometerModel.sim_noise_seed := (-1)%Z |}.

(** A simulator with noise disabled whose level for the noise map is
    NaN. *)
Definition quiet_nan_simulator : InterferometerModel.SimulatorInterferometer :=
  {| InterferometerModel.sim_uv_wavelengths := [(0%Q, 0%Q)];
     InterferometerModel.sim_exposure_time_map := None;
     InterferometerModel.sim_background_sky_map := None;
     InterferometerModel.sim_transformer_class := pixel_transformer;
     InterferometerModel.sim_noise_sigma := None;
     InterferometerModel.sim_noise_if_add_noise_false :=
       InterferometerModel.NaN;
     InterferometerModel.sim_noise_seed := (-1)%Z |}.

End Samples.

(* ===================================================================== *)
(** * Properties of autoarray/instruments/acs.py *)
(* ===================================================================== *)

Module AcsProps.
Import Acs.

Example hdu_A : fits_hdu_from_quadrant_letter "A" = Ok 1%Z.
Proof. reflexivity. Qed.

Example hdu_D : fits_hdu_from_quadrant_letter "D" = Ok 4%Z.
Proof. reflexivity. Qed.

Example hdu_E : fits_hdu_from_quadrant_letter "E" = Raise FrameException.
Proof. reflexivity. Qed.

Lemma str_eq_true (a b : string) : str_eq a b = true <-> a = b.
Proof. apply String.eqb_eq. Qed.

Lemma str_eq_false (a b : string) : str_eq a b = false <-> a <> b.
Proof. apply String.eqb_neq. Qed.

(** C5: the quadrant letter maps to header-data-unit 1 for A and B, to 4 for
    C and D, and every other input raises [FrameException]; no other value
    is ever returned. *)
Theorem fits_hdu_from_quadrant_letter_spec (q : string) :
  (q = "A" \/ q = "B" -> fits_hdu_from_quadrant_letter q = Ok 1%Z)
  /\ (q = "C" \/ q = "D" -> fits_hdu_from_quadrant_letter q = Ok 4%Z)
  /\ (q <> "A" -> q <> "B" -> q <> "C" -> q <> "D" ->
      fits_hdu_from_quadrant_letter q = Raise FrameException)
  /\ (forall n, fits_hdu_from_quadrant_letter q = Ok n -> n = 1%Z \/ n = 4%Z).
Proof.
  unfold fits_hdu_from_quadrant_letter.
  repeat split.
  - intros [-> | ->]; reflexivity.
  - intros [-> | ->]; reflexivity.
  - intros HA HB HC HD.
    apply str_eq_false in HA, HB, HC, HD.
    rewrite HA, HB, HC, HD. reflexivity.
  - intros n.
    destruct (str_eq q "A" || str_eq q "B").
    + intros [= <-]. left; reflexivity.
    + destruct (str_eq q "C" || str_eq q "D"); [|discriminate].
      intros [= <-]. right; reflexivity.
Qed.

(** C2: with original units COUNTS the conversion returns
    [raw*bscale + bzero] in every pixel, and with original units CPS it
    returns [raw*exposure_time*bscale + bzero] in every pixel. *)
Theorem array_converted_to_electrons_from_fits_spec
    (raw : array_2d) (info : ExposureInfoACS) (b t : Q) :
  bscale info = Some b ->
  (original_units info = "COUNTS" ->
   array_converted_to_electrons_from_fits raw info
   = Ok (Some (map (map (counts_to_electrons b (bzero info))) raw)))
  /\ (original_units info = "CPS" ->
      exposure_time info = Some t ->
      array_converted_to_electrons_from_fits raw info
      = Ok (Some (map (map (cps_to_electrons t b (bzero info))) raw))).
Proof.
  intros Hb. unfold array_converted_to_electrons_from_fits.
  split; [intros Hu | intros Hu Ht]; rewrite Hu, ?Hb, ?Ht; simpl;
    unfold array_add_scalar; do 2 f_equal;
    rewrite !List.map_map; apply List.map_ext; intros row;
    rewrite !List.map_map; apply List.map_ext; intros x; reflexivity.
Qed.

(** The literal samples: 10 counts become 21 electrons, and 10 counts per
    second over 5 seconds become 101 electrons. *)
Lemma array_converted_to_electrons_from_fits_spec_witness :
  array_converted_to_electrons_from_fits [[10%Q]] Samples.exposure_counts
  = Ok (Some [[21%Q]])
  /\ array_converted_to_electrons_from_fits [[10%Q]] Samples.exposure_cps
     = Ok (Some [[101%Q]]).
Proof.
  split.
  - exact (proj1 (array_converted_to_electrons_from_fits_spec
                    [[10%Q]] Samples.exposure_counts 2 5 eq_refl)
                 eq_refl).
  - exact (proj2 (array_converted_to_electrons_from_fits_spec
                    [[10%Q]] Samples.exposure_cps 2 5 eq_refl)
                 eq_refl eq_refl).
Defined.

Lemma fits_hdu_from_quadrant_letter_spec_witness :
  fits_hdu_from_quadrant_letter "B" = Ok 1%Z
  /\ fits_hdu_from_quadrant_letter "C" = Ok 4%Z
  /\ fits_hdu_from_quadrant_letter "E" = Raise FrameException.
Proof.
  split; [|split].
  - exact (proj1 (fits_hdu_from_quadrant_letter_spec "B")
                 (or_intror eq_refl)).
  - exact (proj1 (proj2 (fits_hdu_from_quadrant_letter_spec "C"))
                 (or_introl eq_refl)).
  - apply (proj1 (proj2 (proj2 (fits_hdu_from_quadrant_letter_spec "E"))));
      discriminate.
Defined.

(** ** The inverse conversion *)

(** X2: without a [bscale] the inverse conversion raises [FrameException],
    whereas the forward conversion of COUNTS or CPS data raises [TypeError]
    (the multiplication by [None]); data in any other unit is not converted
    at all and [None] is returned. *)
Theorem conversions_without_bscale (a : array_2d) (info : ExposureInfoACS)
    (t : Q) :
  bscale info = None ->
  exposure_time info = Some t ->
  ExposureInfoACS_array_eps_to_counts info a = Raise FrameException
  /\ (original_units info = "COUNTS" \/ original_units info = "CPS" ->
      array_converted_to_electrons_from_fits a info = Raise TypeError)
  /\ (str_in (original_units info) "COUNTS" = false ->
      str_in (original_units info) "CPS" = false ->
      array_converted_to_electrons_from_fits a info = Ok None).
Proof.
  intros Hb Ht.
  unfold ExposureInfoACS_array_eps_to_counts, array_eps_to_counts,
    array_converted_to_electrons_from_fits.
  rewrite Hb, Ht. repeat split.
  - intros [-> | ->]; reflexivity.
  - intros -> ->. reflexivity.
Qed.

Lemma conversions_without_bscale_witness :
  ExposureInfoACS_array_eps_to_counts
    {| original_units := "CPS"; bscale := None; bzero := 0%Q;
       exposure_time := Some 5%Q; hdu := 1%Z |} [[1%Q]]
  = Raise FrameException
  /\ array_converted_to_electrons_from_fits [[1%Q]]
       {| original_units := "CPS"; bscale := None; bzero := 0%Q;
          exposure_time := Some 5%Q; hdu := 1%Z |}
     = Raise TypeError.
Proof.
  destruct (conversions_without_bscale [[1%Q]]
              {| original_units := "CPS"; bscale := None; bzero := 0%Q;
                 exposure_time := Some 5%Q; hdu := 1%Z |} 5 eq_refl eq_refl)
    as (H1 & H2 & _).
  split; [exact H1 | exact (H2 (or_intror eq_refl))].
Defined.

(** ** Quadrants *)

Lemma slice_bound_of_nat (len i : nat) :
  slice_bound len (Z.of_nat i) = Nat.min i len.
Proof.
  unfold slice_bound.
  destruct (Z.ltb_spec (Z.of_nat i) 0) as [H|H]; [lia|].
  rewrite Nat2Z.id. reflexivity.
Qed.

(** A slice with bounds that are not negative is a [firstn] of a
    [skipn]. *)
Lemma py_slice_of_nat {A : Type} (lo hi : nat) (l : list A) :
  py_slice (Z.of_nat lo) (Z.of_nat hi) l = firstn (hi - lo) (skipn lo l).
Proof.
  unfold py_slice. rewrite !slice_bound_of_nat.
  destruct (Nat.le_gt_cases (length l) lo) as [Hlo|Hlo].
  - rewrite !skipn_all2 by lia. rewrite !firstn_nil. reflexivity.
  - replace (Nat.min lo (length l)) with lo by lia.
    destruct (Nat.le_gt_cases (length l) hi) as [Hhi|Hhi].
    + replace (Nat.min hi (length l)) with (length l) by lia.
      rewrite !firstn_all2; [reflexivity | |]; rewrite length_skipn; lia.
    + replace (Nat.min hi (length l)) with hi by lia. reflexivity.
Qed.

Lemma firstn_split_skipn {A : Type} (n : nat) (l : list A) :
  app (firstn n l) (firstn n (skipn n l)) = firstn (n * 2) l.
Proof.
  replace (n * 2) with (n + n) by lia.
  apply take_take_drop.
Qed.

(** X3: [Array2DACS.from_ccd] accepts exactly the quadrant letters that
    [fits_hdu_from_quadrant_letter] accepts, so in
    [Array2DACS.from_fits] its invalid-quadrant branch is never reached:
    [from_fits] returns for A, B, C and D, with pixel scale 0.05 and no
    exposure info, and raises [FrameException] for every other letter. *)
Theorem Array2DACS_from_fits_quadrants
    (rotate : array_2d -> nat * nat -> array_2d)
    (read : string -> Z -> array_2d) (file_path q : string)
    (a : array_2d) (ps ss : nat) (info : option ExposureInfoACS) :
  (Array2DACS_from_ccd rotate (Some a) q ps ss info = Raise FrameException
   <-> fits_hdu_from_quadrant_letter q = Raise FrameException)
  /\ (fits_hdu_from_quadrant_letter q = Raise FrameException ->
      Array2DACS_from_fits rotate read file_path q = Raise FrameException)
  /\ (forall n, fits_hdu_from_quadrant_letter q = Ok n ->
        exists r,
          Array2DACS_from_fits rotate read file_path q = Ok r
          /\ acs_pixel_scales r = 0.05%Q
          /\ acs_exposure_info r = None).
Proof.
  unfold Array2DACS_from_fits, Array2DACS_from_ccd,
    fits_hdu_from_quadrant_letter.
  destruct (str_eq q "A") eqn:HA, (str_eq q "B") eqn:HB,
    (str_eq q "C") eqn:HC, (str_eq q "D") eqn:HD; simpl;
    (split; [split; intros H; first [discriminate H | reflexivity]|]);
    (split; [intros H; first [discriminate H | reflexivity]|]);
    intros n Hn; try discriminate Hn;
    eexists; (split; [reflexivity|]); split; reflexivity.
Qed.

Lemma Array2DACS_from_fits_quadrants_witness :
  Array2DACS_from_fits Samples.no_rotation Samples.readout_2x4 "f.fits" "E"
  = Raise FrameException
  /\ exists r,
       Array2DACS_from_fits Samples.no_rotation Samples.readout_2x4 "f.fits"
         "D" = Ok r
       /\ acs_pixel_scales r = 0.05%Q
       /\ acs_exposure_info r = None.
Proof.
  split.
  - apply (proj1 (proj2 (Array2DACS_from_fits_quadrants Samples.no_rotation
                           Samples.readout_2x4 "f.fits" "E" [] 0 0 None))).
    reflexivity.
  - apply (proj2 (proj2 (Array2DACS_from_fits_quadrants Samples.no_rotation
                           Samples.readout_2x4 "f.fits" "D" [] 0 0 None))
             4%Z).
    reflexivity.
Defined.

(** X4: the left quadrant (B, C) and the right quadrant (A, D) that
    [Array2DACS.from_ccd] cuts from one readout are its two halves: row by
    row, the left slice followed by the right slice is the readout cut to
    [parallel_size] rows and [2 * serial_size] columns. *)
Theorem Array2DACS_from_ccd_halves
    (rotate : array_2d -> nat * nat -> array_2d) (a : array_2d)
    (ps ss : nat) (info : option ExposureInfoACS) (ql qr : string) :
  ql = "B" \/ ql = "C" ->
  qr = "A" \/ qr = "D" ->
  exists left right,
    Array2DACS_from_ccd rotate (Some a) ql ps ss info
    = Ok (Array2DACS_left rotate left info)
    /\ Array2DACS_from_ccd rotate (Some a) qr ps ss info
       = Ok (Array2DACS_right rotate right info)
    /\ length left = length right
    /\ zip_with app left right = slice_2d a 0 ps 0 (ss * 2).
Proof.
  intros Hl Hr.
  exists (slice_2d a 0 ps 0 ss), (slice_2d a 0 ps ss (ss * 2)).
  split; [destruct Hl as [-> | ->]; reflexivity|].
  split; [destruct Hr as [-> | ->]; reflexivity|].
  unfold slice_2d. rewrite !length_map. split; [reflexivity|].
  generalize (py_slice (Z.of_nat 0) (Z.of_nat ps) a). intros rows.
  induction rows as [|row rows IH]; simpl; [reflexivity|].
  rewrite IH. f_equal.
  rewrite !py_slice_of_nat. simpl skipn. rewrite !Nat.sub_0_r.
  replace (ss * 2 - ss) with ss by lia.
  apply firstn_split_skipn.
Qed.

Lemma Array2DACS_from_ccd_halves_witness :
  exists left right,
    Array2DACS_from_ccd Samples.no_rotation
      (Some (Samples.readout_2x4 "f" 1%Z)) "B" 2 2 None
    = Ok (Array2DACS_left Samples.no_rotation left None)
    /\ Array2DACS_from_ccd Samples.no_rotation
         (Some (Samples.readout_2x4 "f" 1%Z)) "A" 2 2 None
       = Ok (Array2DACS_right Samples.no_rotation right None)
    /\ length left = length right
    /\ zip_with app left right
       = slice_2d (Samples.readout_2x4 "f" 1%Z) 0 2 0 (2 * 2).
Proof.
  apply (Array2DACS_from_ccd_halves Samples.no_rotation
           (Samples.readout_2x4 "f" 1%Z) 2 2 None "B" "A");
    [left | left]; reflexivity.
Defined.

(** X5: [ImageACS.from_fits] on a file whose [BUNIT] is neither COUNTS nor
    CPS (nor a substring of one of them) raises [TypeError] for every valid
    quadrant: the conversion returns [None], which [from_ccd] then
    slices. *)
Theorem ImageACS_from_fits_unknown_units
    (rotate : array_2d -> nat * nat -> array_2d)
    (read : string -> Z -> array_2d)
    (header : string -> Z -> ExposureInfoACS) (file_path q : string) (n : Z) :
  fits_hdu_from_quadrant_letter q = Ok n ->
  str_in (original_units (header file_path n)) "COUNTS" = false ->
  str_in (original_units (header file_path n)) "CPS" = false ->
  ImageACS_from_fits rotate read header file_path q = Raise TypeError.
Proof.
  intros Hq H1 H2. unfold ImageACS_from_fits. rewrite Hq. simpl bind.
  unfold array_converted_to_electrons_from_fits. rewrite H1, H2. simpl bind.
  revert Hq. unfold fits_hdu_from_quadrant_letter, Array2DACS_from_ccd.
  destruct (str_eq q "A"), (str_eq q "B"), (str_eq q "C"), (str_eq q "D");
    simpl; intros Hq; first [reflexivity | discriminate Hq].
Qed.

Lemma ImageACS_from_fits_unknown_units_witness :
  ImageACS_from_fits Samples.no_rotation Samples.readout_2x4
    Samples.header_electrons "image.fits" "C" = Raise TypeError.
Proof.
  apply (ImageACS_from_fits_unknown_units _ _ _ _ _ 4%Z); reflexivity.
Defined.

(** ** Layout *)

Example Layout2DACS_from_ccd_default :
  Layout2DACS_from_ccd Samples.region_checked Samples.layout_record
    "A" 2068 2072 24 20
  = Ok ((1, 1), (2068, 2072)%Z, (2048, 2068, 0, 2048)%Z,
        (0, 2068, 2048, 2072)%Z).
Proof. reflexivity. Qed.

Example Layout2DACS_from_ccd_empty_regions :
  Layout2DACS_from_ccd Samples.region_checked Samples.layout_record
    "C" 10 8 0 0
  = Raise RegionException.
Proof. reflexivity. Qed.



End AcsProps.

(* ===================================================================== *)
(** * Properties of autoarray/mask/mask.py *)
(* ===================================================================== *)

Module MaskProps.
Import MaskModel.

Example manual_float_example :
  manual Samples.rows_2x2 (PyFloat 0.5%Q) 1%Z (0%Q, 0%Q) false
  = Ok {| mask_array := {| shape := [2; 2];
                           data := [true; false; false; true] |};
          sub_size := 1%Z;
          pixel_scales := PyTuple [PyFloat 0.5%Q; PyFloat 0.5%Q];
          origin := (0%Q, 0%Q) |}.
Proof. reflexivity. Qed.

Example manual_int_example :
  manual Samples.rows_2x2 (PyInt 1) 1%Z (0%Q, 0%Q) false
  = Ok {| mask_array := {| shape := [2; 2];
                           data := [true; false; false; true] |};
          sub_size := 1%Z;
          pixel_scales := PyInt 1;
          origin := (0%Q, 0%Q) |}.
Proof. reflexivity. Qed.

Example manual_1d_example :
  manual (MaskList []) (PyFloat 1%Q) 1%Z (0%Q, 0%Q) false
  = Raise MaskException.
Proof. reflexivity. Qed.

Lemma ndim_np_invert (a : ndarray) : ndim (np_invert a) = ndim a.
Proof. reflexivity. Qed.

Lemma ndim_manual_array (m : mask_input) (invert : bool) :
  ndim (manual_array m invert) = ndim (mask_as_ndarray m).
Proof. destruct invert; reflexivity. Qed.

(** What [manual] returns on a 2D input, whatever the pixel scales. *)
Lemma manual_2d (m : mask_input) (ps : pyval) (k : Z) (o : Q * Q)
    (invert : bool) :
  ndim (mask_as_ndarray m) = 2 ->
  manual m ps k o invert
  = Ok (Mask_new (manual_array m invert)
          (if type_is_float ps then PyTuple [ps; ps] else ps) k o).
Proof.
  intros H2. unfold manual. fold (manual_array m invert).
  rewrite ndim_manual_array, H2. reflexivity.
Qed.

(** A float and the pair made of it are indistinguishable to [manual], on
    every input. *)
Lemma manual_float_eq_pair (m : mask_input) (s : Q) (k : Z) (o : Q * Q)
    (invert : bool) :
  manual m (PyFloat s) k o invert
  = manual m (PyTuple [PyFloat s; PyFloat s]) k o invert.
Proof. reflexivity. Qed.

(** C4: on a 2D boolean mask, [Mask.manual] with a single float [s] builds
    the same mask as with the pair [(s, s)]: same entries, same sub_size and
    origin, and pixel scales equal to the isotropic pair. *)
Theorem manual_float_pixel_scales_broadcast (m : mask_input) (s : Q) (k : Z)
    (o : Q * Q) (invert : bool) :
  ndim (mask_as_ndarray m) = 2 ->
  exists mk,
    manual m (PyFloat s) k o invert = Ok mk
    /\ manual m (PyTuple [PyFloat s; PyFloat s]) k o invert = Ok mk
    /\ mask_array mk = manual_array m invert
    /\ pixel_scales mk = PyTuple [PyFloat s; PyFloat s]
    /\ sub_size mk = k
    /\ origin mk = o.
Proof.
  intros H2.
  exists (Mask_new (manual_array m invert)
            (PyTuple [PyFloat s; PyFloat s]) k o).
  rewrite <- manual_float_eq_pair, (manual_2d _ _ _ _ _ H2).
  repeat split.
Qed.

Lemma manual_float_pixel_scales_broadcast_witness :
  exists mk,
    manual Samples.rows_2x2 (PyFloat 0.5%Q) 2%Z (0%Q, 0%Q) true = Ok mk
    /\ manual Samples.rows_2x2 (PyTuple [PyFloat 0.5%Q; PyFloat 0.5%Q]) 2%Z
         (0%Q, 0%Q) true = Ok mk
    /\ mask_array mk = manual_array Samples.rows_2x2 true
    /\ pixel_scales mk = PyTuple [PyFloat 0.5%Q; PyFloat 0.5%Q]
    /\ sub_size mk = 2%Z
    /\ origin mk = (0%Q, 0%Q).
Proof.
  apply (manual_float_pixel_scales_broadcast Samples.rows_2x2). reflexivity.
Defined.

(** The block of the geometric constructors turns every non-tuple value
    that [float] accepts into a pair of floats. *)
Lemma geometric_pixel_scales_non_tuple (ps : pyval) (x : Q) :
  type_is_tuple ps = false ->
  py_float ps = Ok x ->
  geometric_pixel_scales ps = Ok (PyTuple [PyFloat x; PyFloat x]).
Proof.
  intros Ht Hf. unfold geometric_pixel_scales.
  rewrite Ht, Hf. simpl. rewrite orb_true_r. reflexivity.
Qed.

Lemma geometric_pixel_scales_tuple (items : list pyval) :
  geometric_pixel_scales (PyTuple items) = Ok (PyTuple items).
Proof. reflexivity. Qed.

(** C9: [Mask.manual] stores an integer [pixel_scales] as the bare integer
    (it broadcasts a value only when its type is exactly float), whereas
    the geometric constructors turn every non-tuple value that [float]
    converts, an integer included, into a pair of floats. *)
Theorem manual_int_pixel_scales_kept
    (circular_from : nat * nat -> pyval -> Q -> Q * Q -> ndarray)
    (annular_from : nat * nat -> pyval -> Q -> Q -> Q * Q -> ndarray)
    (m : mask_input) (n : Z) (k : Z) (o : Q * Q) (invert : bool)
    (shape_2d : nat * nat) (r r' : Q) (centre : Q * Q) :
  ndim (mask_as_ndarray m) = 2 ->
  (forall sh ps rad c, ndim (circular_from sh ps rad c) = 2) ->
  (forall sh ps r1 r2 c, ndim (annular_from sh ps r1 r2 c) = 2) ->
  (exists mk, manual m (PyInt n) k o invert = Ok mk
              /\ pixel_scales mk = PyInt n)
  /\ (forall ps, type_is_float ps = false ->
        exists mk, manual m ps k o invert = Ok mk /\ pixel_scales mk = ps)
  /\ (forall s,
        exists mk, manual m (PyFloat s) k o invert = Ok mk
                   /\ pixel_scales mk = PyTuple [PyFloat s; PyFloat s])
  /\ (forall ps x, type_is_tuple ps = false -> py_float ps = Ok x ->
        (exists mk,
            circular circular_from shape_2d r ps k o centre invert = Ok mk
            /\ pixel_scales mk = PyTuple [PyFloat x; PyFloat x])
        /\ (exists mk,
               circular_annular annular_from shape_2d r r' ps k o centre
                 invert = Ok mk
               /\ pixel_scales mk = PyTuple [PyFloat x; PyFloat x]))
  /\ (exists mk,
         circular circular_from shape_2d r (PyInt n) k o centre invert = Ok mk
         /\ pixel_scales mk
            = PyTuple [PyFloat (inject_Z n); PyFloat (inject_Z n)]).
Proof.
  intros H2 Hc Ha.
  assert (Hgeo : forall ps x, type_is_tuple ps = false -> py_float ps = Ok x ->
    (exists mk,
        circular circular_from shape_2d r ps k o centre invert = Ok mk
        /\ pixel_scales mk = PyTuple [PyFloat x; PyFloat x])
    /\ (exists mk,
           circular_annular annular_from shape_2d r r' ps k o centre
             invert = Ok mk
           /\ pixel_scales mk = PyTuple [PyFloat x; PyFloat x])).
  { intros ps x Ht Hf. unfold circular, circular_annular.
    rewrite (geometric_pixel_scales_non_tuple ps x Ht Hf). simpl bind.
    split; rewrite manual_2d by (simpl; auto);
      eexists; (split; [reflexivity|]); reflexivity. }
  repeat apply conj.
  - rewrite manual_2d by assumption. eexists; split; reflexivity.
  - intros ps Hps. rewrite manual_2d by assumption. rewrite Hps.
    eexists; split; reflexivity.
  - intros s. rewrite manual_2d by assumption.
    eexists; split; reflexivity.
  - exact Hgeo.
  - exact (proj1 (Hgeo (PyInt n) (inject_Z n) eq_refl eq_refl)).
Qed.

Lemma manual_int_pixel_scales_kept_witness :
  (exists mk, manual Samples.rows_2x2 (PyInt 1) 1%Z (0%Q, 0%Q) false = Ok mk
              /\ pixel_scales mk = PyInt 1)
  /\ (exists mk,
         circular Samples.unmasked_circular (3, 3) 1%Q (PyInt 1) 1%Z
           (0%Q, 0%Q) (0%Q, 0%Q) false = Ok mk
         /\ pixel_scales mk = PyTuple [PyFloat 1%Q; PyFloat 1%Q]).
Proof.
  pose proof (manual_int_pixel_scales_kept
                Samples.unmasked_circular Samples.unmasked_annular
                Samples.rows_2x2 1 1 (0%Q, 0%Q) false (3, 3) 1%Q 2%Q
                (0%Q, 0%Q) eq_refl
                (fun _ _ _ _ => eq_refl) (fun _ _ _ _ _ => eq_refl))
    as (Hm & _ & _ & _ & Hc).
  split; [exact Hm | exact Hc].
Defined.

(** ** Counting pixels *)

Lemma count_true_negb (l : list bool) :
  length (filter (fun b : bool => b = true) (map negb l))
  + length (filter (fun b : bool => b = true) l) = length l.
Proof.
  induction l as [|[] l IH]; simpl; [reflexivity | |];
    rewrite ?filter_cons_True, ?filter_cons_False by (simpl; congruence);
    simpl; lia.
Qed.

Lemma count_true_repeat_false (n : nat) :
  length (filter (fun b : bool => b = true) (repeat false n)) = 0.
Proof.
  induction n as [|n IH]; simpl; [reflexivity|].
  rewrite filter_cons_False by congruence. exact IH.
Qed.

Lemma length_concat_rectangular (r : list bool) (rs : list (list bool)) :
  forallb (fun r' => Nat.eqb (length r') (length r)) rs = true ->
  length (concat rs) = length rs * length r.
Proof.
  induction rs as [|r' rs IH]; simpl; [reflexivity|].
  intros H. apply andb_prop in H as [H1 H2]. apply Nat.eqb_eq in H1.
  rewrite length_app, IH, H1 by assumption. reflexivity.
Qed.

(** A nested list always becomes an array with as many entries as its
    shape announces. *)
Lemma asarray_bool_well_shaped (rows : list (list bool)) :
  well_shaped (asarray_bool rows).
Proof.
  unfold well_shaped, asarray_bool, np_size.
  destruct (is_rectangular rows) eqn:Hr; simpl.
  - destruct rows as [|r rs]; [discriminate Hr|]. simpl in *.
    rewrite length_app, (length_concat_rectangular r rs Hr). lia.
  - rewrite length_map. lia.
Qed.

(** X7: the mask [Mask.manual] builds with [invert=True] counts as
    unmasked exactly the pixels the mask built with [invert=False] counts
    as masked: the two values of [pixels_in_mask] add up to the number of
    pixels, and one mask is all true exactly when the other is all
    false. *)
Theorem manual_invert_pixels_in_mask (m : mask_input) (ps : pyval) (k : Z)
    (o : Q * Q) :
  ndim (mask_as_ndarray m) = 2 ->
  well_shaped (mask_as_ndarray m) ->
  exists plain inverted,
    manual m ps k o false = Ok plain
    /\ manual m ps k o true = Ok inverted
    /\ (pixels_in_mask plain + pixels_in_mask inverted
        = Z.of_nat (np_size (mask_as_ndarray m)))%Z
    /\ (0 <= pixels_in_mask plain)%Z
    /\ is_all_false inverted = Return (is_all_true plain).
Proof.
  intros H2 Hw.
  rewrite !manual_2d by assumption. do 2 eexists.
  split; [reflexivity|]. split; [reflexivity|].
  unfold pixels_in_mask, is_all_false, is_all_true, shape_2d, pixels_in_mask,
    np_sum. simpl.
  pose proof (count_true_negb (data (mask_as_ndarray m))) as Hc.
  red in Hw. unfold ndim in H2.
  assert (Hs : np_size (np_invert (mask_as_ndarray m))
               = np_size (mask_as_ndarray m)) by reflexivity.
  rewrite Hs.
  split; [lia|]. split; [lia|].
  destruct (shape (mask_as_ndarray m)) as [|s0 [|s1 [|]]] eqn:Hsh;
    try discriminate H2.
  f_equal. unfold np_size in *. rewrite Hsh in *. simpl in *.
  rewrite Nat.mul_1_r in *.
  destruct (Z.eqb_spec
              (Z.of_nat (s0 * s1)
               - Z.of_nat (length (filter (fun b : bool => b = true)
                                     (data (mask_as_ndarray m))))) 0)
    as [E|E];
    [apply Z.eqb_eq | apply Z.eqb_neq]; lia.
Qed.

Lemma manual_invert_pixels_in_mask_witness :
  exists plain inverted,
    manual Samples.rows_2x2 (PyFloat 1%Q) 1%Z (0%Q, 0%Q) false = Ok plain
    /\ manual Samples.rows_2x2 (PyFloat 1%Q) 1%Z (0%Q, 0%Q) true
       = Ok inverted
    /\ (pixels_in_mask plain + pixels_in_mask inverted
        = Z.of_nat (np_size (mask_as_ndarray Samples.rows_2x2)))%Z
    /\ (0 <= pixels_in_mask plain)%Z
    /\ is_all_false inverted = Return (is_all_true plain).
Proof.
  apply manual_invert_pixels_in_mask; [reflexivity|].
  apply asarray_bool_well_shaped.
Defined.

(** X8: [Mask.unmasked] returns, for every shape, a mask in which every
    pixel is unmasked ([pixels_in_mask] is the number of pixels and
    [is_all_false] holds), and with [invert=True] a mask in which none is
    ([pixels_in_mask] is 0 and [is_all_true] holds). *)
Theorem unmasked_counts (sh : nat * nat) (ps : pyval) (k : Z) (o : Q * Q) :
  (exists mk,
      unmasked sh ps k o false = Ok mk
      /\ pixels_in_mask mk = Z.of_nat (fst sh * snd sh)
      /\ is_all_false mk = Return true)
  /\ (exists mk,
         unmasked sh ps k o true = Ok mk
         /\ pixels_in_mask mk = 0%Z
         /\ is_all_true mk = true).
Proof.
  unfold unmasked.
  assert (Hsize : np_size (np_full_false sh) = fst sh * snd sh)
    by (unfold np_size; simpl; lia).
  split; rewrite manual_2d by reflexivity; eexists;
    (split; [reflexivity|]).
  - assert (Hp : pixels_in_mask
                   (Mask_new (manual_array (MaskArray (np_full_false sh)) false)
                      (if type_is_float ps then PyTuple [ps; ps] else ps) k o)
                 = Z.of_nat (fst sh * snd sh)).
    { unfold pixels_in_mask, np_sum. simpl mask_array.
      unfold manual_array, mask_as_ndarray. rewrite Hsize. simpl data.
      rewrite count_true_repeat_false. lia. }
    split; [exact Hp|].
    unfold is_all_false. rewrite Hp. simpl. rewrite Z.eqb_refl. reflexivity.
  - assert (Hp : pixels_in_mask
                   (Mask_new (manual_array (MaskArray (np_full_false sh)) true)
                      (if type_is_float ps then PyTuple [ps; ps] else ps) k o)
                 = 0%Z).
    { unfold pixels_in_mask, np_sum. simpl mask_array.
      unfold manual_array, mask_as_ndarray.
      assert (Hs : np_size (np_invert (np_full_false sh)) = fst sh * snd sh)
        by exact Hsize.
      rewrite Hs. simpl data.
      pose proof (count_true_negb (repeat false (fst sh * snd sh))) as Hc.
      rewrite count_true_repeat_false, repeat_length in Hc. lia. }
    split; [exact Hp|]. unfold is_all_true. rewrite Hp. reflexivity.
Qed.

(** ** Pixel scales *)

Lemma py_eq_float_refl (s : Q) : py_eq (PyFloat s) (PyFloat s) = true.
Proof. simpl. apply Qeq_bool_iff. reflexivity. Qed.

(** X9: what [Mask.pixel_scale] gives on the masks [Mask.manual] builds:
    the float itself when a float was passed, [MaskException] when a pair
    of different floats was passed, and [TypeError] when an integer or
    [None] was passed, which [manual] stores as it is and which cannot be
    indexed. *)
Theorem pixel_scale_of_manual (m : mask_input) (k : Z) (o : Q * Q)
    (invert : bool) :
  ndim (mask_as_ndarray m) = 2 ->
  (forall s, exists mk,
      manual m (PyFloat s) k o invert = Ok mk
      /\ pixel_scale mk = Return (PyFloat s))
  /\ (forall a b, ~ a == b -> exists mk,
        manual m (PyTuple [PyFloat a; PyFloat b]) k o invert = Ok mk
        /\ pixel_scale mk = Throw (Exn MaskException))
  /\ (forall n, exists mk,
        manual m (PyInt n) k o invert = Ok mk
        /\ pixel_scale mk = Throw (Exn TypeError))
  /\ (exists mk,
         manual m PyNone k o invert = Ok mk
         /\ pixel_scale mk = Throw (Exn TypeError)).
Proof.
  intros H2. repeat apply conj; intros;
    rewrite manual_2d by assumption; eexists; (split; [reflexivity|]);
    unfold pixel_scale; simpl; try reflexivity.
  - rewrite (proj2 (Qeq_bool_iff s s)) by reflexivity. reflexivity.
  - destruct (Qeq_bool a b) eqn:E; [|reflexivity].
    apply Qeq_bool_iff in E. contradiction.
Qed.

Lemma pixel_scale_of_manual_witness :
  (exists mk,
      manual Samples.rows_2x2 (PyFloat 0.5%Q) 1%Z (0%Q, 0%Q) false = Ok mk
      /\ pixel_scale mk = Return (PyFloat 0.5%Q))
  /\ (exists mk,
         manual Samples.rows_2x2 (PyInt 1) 1%Z (0%Q, 0%Q) false = Ok mk
         /\ pixel_scale mk = Throw (Exn TypeError)).
Proof.
  destruct (pixel_scale_of_manual Samples.rows_2x2 1%Z (0%Q, 0%Q) false
              eq_refl) as (Hf & _ & Hi & _).
  split; [exact (Hf 0.5%Q) | exact (Hi 1%Z)].
Defined.

(** X10: binning a mask that [Mask.manual] built from a float [s] by an
    integer factor [f] gives a mask whose pixel scales are the pair
    [(s*f, s*f)], whose [pixel_scale] is therefore [s*f], and whose
    sub_size and origin are unchanged; a mask built with [None] keeps
    [None]; a mask built with an integer raises [TypeError]. *)
Theorem binned_mask_pixel_scales (bin : ndarray -> Z -> ndarray)
    (m : mask_input) (k : Z) (o : Q * Q) (invert : bool) (f : Z) :
  ndim (mask_as_ndarray m) = 2 ->
  (forall s, exists mk binned,
      manual m (PyFloat s) k o invert = Ok mk
      /\ binned_mask_from_bin_up_factor bin mk f = Return binned
      /\ pixel_scales binned
         = PyTuple [PyFloat (s * inject_Z f); PyFloat (s * inject_Z f)]
      /\ pixel_scale binned = Return (PyFloat (s * inject_Z f))
      /\ sub_size binned = k /\ origin binned = o)
  /\ (exists mk binned,
         manual m PyNone k o invert = Ok mk
         /\ binned_mask_from_bin_up_factor bin mk f = Return binned
         /\ pixel_scales binned = PyNone)
  /\ (forall n, exists mk,
        manual m (PyInt n) k o invert = Ok mk
        /\ binned_mask_from_bin_up_factor bin mk f = Throw (Exn TypeError)).
Proof.
  intros H2. repeat apply conj; intros;
    rewrite manual_2d by assumption.
  - do 2 eexists. split; [reflexivity|]. split; [reflexivity|].
    split; [reflexivity|]. split; [|split; reflexivity].
    unfold pixel_scale. simpl.
    rewrite (proj2 (Qeq_bool_iff _ _)) by reflexivity. reflexivity.
  - do 2 eexists. split; [reflexivity|]. split; reflexivity.
  - eexists. split; reflexivity.
Qed.

Lemma binned_mask_pixel_scales_witness :
  exists mk binned,
    manual Samples.rows_2x2 (PyFloat 0.5%Q) 1%Z (0%Q, 0%Q) false = Ok mk
    /\ binned_mask_from_bin_up_factor Samples.bin_nothing mk 2 = Return binned
    /\ pixel_scale binned = Return (PyFloat (0.5 * inject_Z 2)%Q).
Proof.
  destruct (binned_mask_pixel_scales Samples.bin_nothing Samples.rows_2x2
              1%Z (0%Q, 0%Q) false 2 eq_refl) as (Hf & _).
  destruct (Hf 0.5%Q) as (mk & binned & H1 & H2 & _ & H3 & _).
  exists mk, binned. repeat split; assumption.
Defined.

(** ** Trimming *)

Lemma length_py_slice {A : Type} (lo hi : Z) (l : list A) :
  (0 <= lo <= hi)%Z -> (hi <= Z.of_nat (length l))%Z ->
  Z.of_nat (length (py_slice lo hi l)) = (hi - lo)%Z.
Proof.
  intros Hlo Hhi. unfold py_slice, slice_bound.
  destruct (Z.ltb_spec lo 0) as [?|_]; [lia|].
  destruct (Z.ltb_spec hi 0) as [?|_]; [lia|].
  rewrite length_take, length_drop. lia.
Qed.

(** X11: trimming a padded array of the mask's shape back to an image
    shape that fits in it keeps, along each axis, the image size plus the
    parity of the padding: the trimmed array has the image's shape exactly
    when both paddings are even, and is one pixel larger along an axis
    whose padding is odd. *)
Theorem trimmed_array_shape (self : Mask) (s0 s1 : nat)
    (padded : list (list Q)) (i0 i1 : Z) :
  shape (mask_array self) = [s0; s1] ->
  length padded = s0 ->
  Forall (fun row => length row = s1) padded ->
  (0 <= i0 <= Z.of_nat s0)%Z ->
  (0 <= i1 <= Z.of_nat s1)%Z ->
  exists trimmed,
    trimmed_array_from_padded_array_and_image_shape self padded (i0, i1)
    = Return trimmed
    /\ Z.of_nat (length (array_2d_values trimmed))
       = (i0 + (Z.of_nat s0 - i0) mod 2)%Z
    /\ Forall (fun row => Z.of_nat (length row)
                          = (i1 + (Z.of_nat s1 - i1) mod 2)%Z)
         (array_2d_values trimmed)
    /\ array_2d_sub_size trimmed = 1%Z
    /\ array_2d_pixel_scales trimmed = pixel_scales self
    /\ array_2d_origin trimmed = origin self.
Proof.
  intros Hsh Hlen Hrows H0 H1.
  unfold trimmed_array_from_padded_array_and_image_shape. rewrite Hsh.
  eexists. split; [reflexivity|]. simpl.
  pose proof (Z.div_mod (Z.of_nat s0 - i0) 2 ltac:(lia)) as D0.
  pose proof (Z.mod_pos_bound (Z.of_nat s0 - i0) 2 ltac:(lia)) as B0.
  pose proof (Z.div_mod (Z.of_nat s1 - i1) 2 ltac:(lia)) as D1.
  pose proof (Z.mod_pos_bound (Z.of_nat s1 - i1) 2 ltac:(lia)) as B1.
  split; [|split; [|repeat split]].
  - rewrite length_map, length_py_slice by lia. lia.
  - apply Forall_map.
    assert (Hsub : Forall (fun row : list Q => length row = s1)
                     (py_slice ((Z.of_nat s0 - i0) / 2)
                        (Z.of_nat s0 - (Z.of_nat s0 - i0) / 2) padded)).
    { unfold py_slice. apply Forall_take, Forall_drop, Hrows. }
    eapply Forall_impl; [exact Hsub|].
    intros row Hrow. cbv beta in Hrow |- *.
    rewrite length_py_slice by lia. lia.
Qed.

Lemma trimmed_array_shape_witness :
  exists trimmed,
    trimmed_array_from_padded_array_and_image_shape
      (Mask_new (np_full_false (4, 4)) (PyTuple [PyFloat 1%Q; PyFloat 1%Q])
         1%Z (0%Q, 0%Q))
      Samples.padded_4x4 (1, 2)%Z
    = Return trimmed
    /\ Z.of_nat (length (array_2d_values trimmed)) = (1 + 1)%Z
    /\ Forall (fun row => Z.of_nat (length row) = (2 + 0)%Z)
         (array_2d_values trimmed).
Proof.
  destruct (trimmed_array_shape
              (Mask_new (np_full_false (4, 4))
                 (PyTuple [PyFloat 1%Q; PyFloat 1%Q]) 1%Z (0%Q, 0%Q))
              4 4 Samples.padded_4x4 1 2 eq_refl eq_refl)
    as (t & Ht & Hr & Hc & _).
  - repeat constructor.
  - split; [discriminate | discriminate].
  - split; [discriminate | discriminate].
  - exists t. split; [exact Ht|]. split; [exact Hr | exact Hc].
Defined.

(** ** Pickling *)

Lemma union_covered (d e : gmap string pyval) :
  dom e ⊆ dom d -> d ∪ e = d.
Proof.
  intros Hdom. apply map_eq. intros k. rewrite lookup_union.
  destruct (d !! k) as [v|] eqn:Hd.
  - destruct (e !! k); reflexivity.
  - assert (He : e !! k = None).
    { apply not_elem_of_dom. intros Hin. apply Hdom in Hin.
      apply elem_of_dom in Hin as [v Hv]. congruence. }
    rewrite He. reflexivity.
Qed.

Lemma ndarray_items_map {np_item : Type} (l : list np_item) :
  ndarray_items np_item (map (NdarrayItem np_item) l) = l.
Proof.
  unfold ndarray_items. induction l as [|x l IH]; simpl; [reflexivity|].
  f_equal. exact IH.
Qed.

(** X22: a mask survives pickling: [__setstate__] applied to the state
    that [__reduce__] returned restores the array (given that NumPy's own
    state does) and the whole instance dictionary, so [sub_size],
    [pixel_scales] and [origin] come back as they were, whatever they
    are, in place of the defaults the unpickled array starts with. *)
Theorem mask_pickle_round_trip (np_item : Type)
    (reduce_state : ndarray -> list np_item)
    (setstate : list np_item -> ndarray) (m : Mask) (blank : ndarray) :
  (forall a, setstate (reduce_state a) = a) ->
  Mask_setstate np_item setstate
    {| object_array := blank; object_dict := finalize_defaults |}
    (Mask_reduce_state np_item reduce_state (object_of_mask m))
  = Return (object_of_mask m).
Proof.
  intros Hnp. unfold Mask_setstate, Mask_reduce_state.
  rewrite last_snoc, removelast_last, ndarray_items_map, Hnp.
  rewrite union_covered; [reflexivity|].
  unfold finalize_defaults, object_of_mask. simpl object_dict.
  rewrite !dom_insert_L. set_solver.
Qed.

Lemma mask_pickle_round_trip_witness :
  Mask_setstate ndarray (hd {| shape := []; data := [] |})
    {| object_array := {| shape := []; data := [] |};
       object_dict := finalize_defaults |}
    (Mask_reduce_state ndarray (fun a => [a])
       (object_of_mask
          (Mask_new {| shape := [2; 2]; data := [true; false; false; true] |}
             (PyTuple [PyFloat 0.5%Q; PyFloat 0.5%Q]) 2%Z (1%Q, 1%Q))))
  = Return
      (object_of_mask
         (Mask_new {| shape := [2; 2]; data := [true; false; false; true] |}
            (PyTuple [PyFloat 0.5%Q; PyFloat 0.5%Q]) 2%Z (1%Q, 1%Q))).
Proof.
  apply (mask_pickle_round_trip ndarray (fun a => [a])
           (hd {| shape := []; data := [] |})).
  intros a. reflexivity.
Defined.

(** The state must end with the dictionary: an empty state raises
    [IndexError], and a state of NumPy items alone raises
    [AttributeError]. *)
Example mask_setstate_malformed :
  Mask_setstate ndarray (hd {| shape := []; data := [] |})
    {| object_array := {| shape := []; data := [] |};
       object_dict := finalize_defaults |} []
  = Throw IndexError
  /\ Mask_setstate ndarray (hd {| shape := []; data := [] |})
       {| object_array := {| shape := []; data := [] |};
          object_dict := finalize_defaults |}
       [NdarrayItem ndarray {| shape := []; data := [] |}]
     = Throw (Exn AttributeError).
Proof. split; reflexivity. Qed.

End MaskProps.

(* ===================================================================== *)
(** * Properties of autoarray/operators/transformer.py *)
(* ===================================================================== *)

Module TransformerProps.
Import TransformerModel.

Section Checks.

Variable real_jit imag_jit : list Q -> list (Q * Q) -> list (Q * Q) -> list Q.
Variable fft_backend nufft_backend : image -> list Q * list Q.







End Checks.





(** ** Mapping matrices *)

Lemma reshape_2d_is_2d (column : list Q) (sh : nat * nat) (im : image) :
  reshape_2d column sh = Ok im -> length (image_shape im) = 2.
Proof.
  unfold reshape_2d. destruct (Nat.eqb _ _); [|discriminate].
  intros [= <-]. reflexivity.
Qed.

Lemma reshape_2d_error (column : list Q) (sh : nat * nat) (e : exn) :
  reshape_2d column sh = Raise e -> e = ValueError.
Proof.
  unfold reshape_2d. destruct (Nat.eqb _ _); [discriminate|].
  intros [= <-]. reflexivity.
Qed.

Lemma assign_column_length (n : nat) (values column : list Q) :
  assign_column n values = Ok column -> length column = n.
Proof.
  unfold assign_column. destruct (Nat.eqb_spec (length values) n) as [E|E].
  - intros [= <-]. exact E.
  - destruct values as [|x [|y values]]; try discriminate.
    intros [= <-]. apply repeat_length.
Qed.

Lemma assign_column_error (n : nat) (values : list Q) (e : exn) :
  assign_column n values = Raise e -> e = ValueError.
Proof.
  unfold assign_column. destruct (Nat.eqb _ _); [discriminate|].
  destruct values as [|x [|y values]]; try discriminate;
    intros [= <-]; reflexivity.
Qed.

Lemma np_stack_error (re im : list Q) (e : exn) :
  np_stack re im = Raise e -> e = ValueError.
Proof.
  unfold np_stack. destruct (Nat.eqb _ _); [discriminate|].
  intros [= <-]. reflexivity.
Qed.

(** The loop over the source pixels, for a variant that can only fail with
    [ValueError] on a 2D image. *)
Lemma transformed_columns_spec (variant : image -> result Visibilities)
    (n_vis : nat) (sh : nat * nat) :
  (forall im e, length (image_shape im) = 2 -> variant im = Raise e ->
                e = ValueError) ->
  forall columns,
    (forall e, transformed_columns variant n_vis sh columns = Raise e ->
               e = ValueError)
    /\ (forall re im,
          transformed_columns variant n_vis sh columns = Ok (re, im) ->
          length re = length columns /\ length im = length columns
          /\ Forall (fun c => length c = n_vis) re
          /\ Forall (fun c => length c = n_vis) im).
Proof.
  intros Hvariant. induction columns as [|column rest [IHe IHs]].
  - split; [discriminate|]. intros re im [= <- <-].
    repeat split; constructor.
  - simpl.
    destruct (reshape_2d column sh) as [img|e0] eqn:Hr; simpl;
      [|split; [intros e [= <-]; eapply reshape_2d_error; eassumption
               | discriminate]].
    pose proof (reshape_2d_is_2d _ _ _ Hr) as H2.
    destruct (variant img) as [vis|e0] eqn:Hv; simpl;
      [|split; [intros e [= <-]; eapply Hvariant; eassumption
               | discriminate]].
    destruct (assign_column n_vis (map fst vis)) as [rc|e0] eqn:Hre; simpl;
      [|split; [intros e [= <-]; eapply assign_column_error; eassumption
               | discriminate]].
    destruct (assign_column n_vis (map snd vis)) as [ic|e0] eqn:Him; simpl;
      [|split; [intros e [= <-]; eapply assign_column_error; eassumption
               | discriminate]].
    destruct (transformed_columns variant n_vis sh rest) as [[res ims]|e0];
      simpl; [|split; [intros e [= <-]; apply IHe; reflexivity
                      | discriminate]].
    split; [discriminate|]. intros re im [= <- <-].
    destruct (IHs res ims eq_refl) as (L1 & L2 & F1 & F2).
    simpl. repeat split; try (f_equal; assumption);
      constructor; try assumption;
      eapply assign_column_length; eassumption.
Qed.

(** X12: the 2D test of [visibilities_from_image] never fires inside
    [transformed_mapping_matrices_from_mapping_matrix] of [TransformerFFT]
    and [TransformerNUFFT], because every column is reshaped to 2D first:
    the only error either method can raise is [ValueError] (a column or a
    visibility vector of the wrong size), and when they return, both
    matrices have one column per source pixel and one row per
    visibility. *)
Theorem transformed_mapping_matrices_shape
    (fft_backend nufft_backend : image -> list Q * list Q) (n_vis : nat)
    (sh : nat * nat) (mapping_matrix : list (list Q)) :
  (forall e,
      fft_transformed_mapping_matrices fft_backend n_vis sh mapping_matrix
      = Raise e \/
      nufft_transformed_mapping_matrices nufft_backend n_vis sh mapping_matrix
      = Raise e ->
      e = ValueError)
  /\ (forall re im,
        fft_transformed_mapping_matrices fft_backend n_vis sh mapping_matrix
        = Ok (re, im) \/
        nufft_transformed_mapping_matrices nufft_backend n_vis sh
          mapping_matrix = Ok (re, im) ->
        length re = length mapping_matrix
        /\ length im = length mapping_matrix
        /\ Forall (fun c => length c = n_vis) re
        /\ Forall (fun c => length c = n_vis) im).
Proof.
  assert (Hfft : forall im e, length (image_shape im) = 2 ->
            fft_visibilities_from_image fft_backend im = Raise e ->
            e = ValueError).
  { intros im e H2. unfold fft_visibilities_from_image. rewrite H2. simpl.
    destruct (fft_backend im). apply np_stack_error. }
  assert (Hnufft : forall im e, length (image_shape im) = 2 ->
            nufft_visibilities_from_image nufft_backend im = Raise e ->
            e = ValueError).
  { intros im e H2. unfold nufft_visibilities_from_image. rewrite H2. simpl.
    destruct (nufft_backend im). apply np_stack_error. }
  destruct (transformed_columns_spec _ n_vis sh Hfft mapping_matrix)
    as [Fe Fs].
  destruct (transformed_columns_spec _ n_vis sh Hnufft mapping_matrix)
    as [Ne Ns].
  split.
  - intros e [H|H]; [apply Fe | apply Ne]; exact H.
  - intros re im [H|H]; [apply Fs | apply Ns]; exact H.
Qed.

Lemma transformed_mapping_matrices_shape_witness :
  length [[1%Q; 2%Q]; [3%Q; 4%Q]] = 2
  /\ Forall (fun c : list Q => length c = 2) [[0%Q; 0%Q]; [0%Q; 0%Q]].
Proof.
  destruct (proj2 (transformed_mapping_matrices_shape
                     Samples.two_visibilities Samples.two_visibilities 2
                     (1, 2) [[1%Q; 2%Q]; [3%Q; 4%Q]])
              [[1%Q; 2%Q]; [3%Q; 4%Q]] [[0%Q; 0%Q]; [0%Q; 0%Q]]
              (or_introl eq_refl))
    as (H1 & _ & _ & H2).
  split; [exact H1 | exact H2].
Defined.

Example fft_transformed_two_columns :
  fft_transformed_mapping_matrices Samples.two_visibilities 2 (1, 2)
    [[1%Q; 2%Q]; [3%Q; 4%Q]]
  = Ok ([[1%Q; 2%Q]; [3%Q; 4%Q]], [[0%Q; 0%Q]; [0%Q; 0%Q]]).
Proof. reflexivity. Qed.

Example fft_transformed_wrong_size :
  fft_transformed_mapping_matrices Samples.two_visibilities 2 (2, 2)
    [[1%Q; 2%Q]]
  = Raise ValueError.
Proof. reflexivity. Qed.

End TransformerProps.

(* ===================================================================== *)
(** * Properties of autoarray/dataset/interferometer.py *)
(* ===================================================================== *)

Module InterferometerProps.
Import InterferometerModel.

(** ** The simulator *)

Lemma any_isnan_full (fill : pyfloat) (n : nat) :
  isnan fill = false -> any_isnan (Visibilities_full fill n) = false.
Proof.
  intros H. unfold any_isnan, Visibilities_full.
  induction n as [|n IH]; simpl; [reflexivity|].
  rewrite H, IH. reflexivity.
Qed.

Lemma Visibilities_full_uniform (fill : pyfloat) (n : nat) :
  length (Visibilities_full fill n) = n
  /\ Forall (fun s => s = (fill, fill)) (Visibilities_full fill n).
Proof.
  unfold Visibilities_full. split.
  - apply repeat_length.
  - induction n as [|n IH]; simpl; constructor; [reflexivity | exact IH].
Qed.

Example from_image_quiet :
  from_image Samples.no_noise Samples.quiet_simulator Samples.image_1x2 None
  = Ok {| visibilities := [(Fin (1 + 0)%Q, Fin 0%Q); (Fin (2 + 0)%Q, Fin 0%Q)];
          noise_map := [(Fin 0.1%Q, Fin 0.1%Q); (Fin 0.1%Q, Fin 0.1%Q)];
          uv_wavelengths := [(0%Q, 0%Q)];
          positions := None;
          name := None |}.
Proof. reflexivity. Qed.

Example from_image_quiet_sky :
  from_image Samples.no_noise Samples.quiet_sky_simulator Samples.image_1x2
    None
  = Ok {| visibilities :=
            [(Fin (1 + 10)%Q, Fin 0%Q); (Fin (2 + 20)%Q, Fin 0%Q)];
          noise_map := [(Fin 0.1%Q, Fin 0.1%Q); (Fin 0.1%Q, Fin 0.1%Q)];
          uv_wavelengths := [(0%Q, 0%Q)];
          positions := None;
          name := None |}.
Proof. reflexivity. Qed.

(** C3, refuted as stated: with [noise_sigma = None] and a
    [noise_if_add_noise_false] that is NaN, [from_image] raises
    [DataException] instead of returning a dataset. *)
Lemma from_image_nan_level_raises :
  sim_noise_sigma Samples.quiet_nan_simulator = None
  /\ from_image Samples.no_noise Samples.quiet_nan_simulator
       Samples.image_1x2 None
     = Raise DataException.
Proof. split; reflexivity. Qed.

(** C3, amended: with [noise_sigma = None], on an image that has as many
    values as the background sky map (the supplied map, or the zero map of
    the image's shape when none is supplied) and on whose sum with it the
    transformer returns, [from_image] returns, when
    [noise_if_add_noise_false] is not NaN, the dataset whose visibilities
    are exactly the transformer's output on the pixelwise sum
    [image + background_sky_map], whose noise map has one entry per
    visibility, each equal to [noise_if_add_noise_false], and whose uv
    wavelengths are the transformer's; when [noise_if_add_noise_false] is
    NaN and there is at least one visibility it raises [DataException]. *)
Theorem from_image_without_noise
    (noise : Visibilities -> pyfloat -> Z -> Visibilities)
    (self : SimulatorInterferometer) (image : Array)
    (nm : option string) (tr : TransformerObj) (vis : Visibilities) :
  let background :=
    match sim_background_sky_map self with
    | Some background_sky_map => array_values background_sky_map
    | None =>
        repeat (Fin 0%Q) (fst (array_shape_2d image) * snd (array_shape_2d image))
    end in
  let summed :=
    {| array_mask := array_mask image;
       array_shape_2d := array_shape_2d image;
       array_pixel_scales := array_pixel_scales image;
       array_values :=
         map (fun p => match fst p, snd p with
                       | Fin a, Fin b => Fin (a + b)%Q
                       | _, _ => NaN
                       end)
           (combine (array_values image) background) |} in
  let level := sim_noise_if_add_noise_false self in
  sim_noise_sigma self = None ->
  sim_transformer_class self (sim_uv_wavelengths self) (array_mask image)
  = Ok tr ->
  length (array_values image) = length background ->
  transformer_visibilities_from_image tr summed = Ok vis ->
  (level <> NaN ->
   from_image noise self image nm
   = Ok {| visibilities := vis;
           noise_map := repeat (level, level) (length vis);
           uv_wavelengths := transformer_uv_wavelengths tr;
           positions := None;
           name := nm |})
  /\ (level = NaN -> vis <> [] ->
      from_image noise self image nm = Raise DataException).
Proof.
  intros background summed level Hsigma Htr Hlen Hvis.
  assert (Hadd : array_add image (background_sky_map_for self image)
                 = Ok summed).
  { unfold array_add, background_sky_map_for, summed, background in *.
    destruct (sim_background_sky_map self) as [b|]; simpl in *;
      rewrite Hlen, Nat.eqb_refl; reflexivity. }
  assert (E : from_image noise self image nm
              = if any_isnan (Visibilities_full level (length vis))
                then Raise DataException
                else Ok {| visibilities := vis;
                           noise_map := repeat (level, level) (length vis);
                           uv_wavelengths := transformer_uv_wavelengths tr;
                           positions := None;
                           name := nm |}).
  { unfold from_image. rewrite Htr. simpl bind.
    rewrite Hadd. simpl bind. rewrite Hvis. simpl bind.
    rewrite Hsigma. reflexivity. }
  rewrite E. split.
  - intros Hnan. rewrite any_isnan_full; [reflexivity|].
    destruct level; [reflexivity | contradiction].
  - intros Hnan Hne. rewrite Hnan.
    destruct vis as [|x vis']; [contradiction|]. reflexivity.
Qed.

Lemma from_image_without_noise_witness :
  from_image Samples.no_noise Samples.quiet_sky_simulator Samples.image_1x2
    (Some "sim")
  = Ok {| visibilities :=
            [(Fin (1 + 10)%Q, Fin 0%Q); (Fin (2 + 20)%Q, Fin 0%Q)];
          noise_map := [(Fin 0.1%Q, Fin 0.1%Q); (Fin 0.1%Q, Fin 0.1%Q)];
          uv_wavelengths := [(0%Q, 0%Q)];
          positions := None;
          name := Some "sim" |}.
Proof.
  refine (proj1 (from_image_without_noise Samples.no_noise
                   Samples.quiet_sky_simulator Samples.image_1x2 (Some "sim")
                   _ _ eq_refl eq_refl eq_refl eq_refl) _).
  discriminate.
Defined.

Lemma any_isnan_full_cases (fill : pyfloat) (n : nat) :
  any_isnan (Visibilities_full fill n) = isnan fill && negb (Nat.eqb n 0).
Proof.
  destruct n as [|n].
  - simpl. rewrite andb_false_r. reflexivity.
  - destruct (isnan fill) eqn:H.
    + unfold any_isnan, Visibilities_full. simpl. rewrite H. reflexivity.
    + rewrite any_isnan_full by assumption. reflexivity.
Qed.

(** X13: once the image has been transformed, [from_image] raises
    [DataException] exactly when the level it fills the noise map with
    ([noise_sigma], or [noise_if_add_noise_false] when the noise is
    switched off) is NaN and there is at least one visibility; otherwise it
    returns the (noisy, when the noise is on) visibilities with a noise map
    of that level, one entry per visibility. *)
Theorem from_image_nan_guard
    (noise : Visibilities -> pyfloat -> Z -> Visibilities)
    (self : SimulatorInterferometer) (image image' : Array)
    (nm : option string) (tr : TransformerObj) (vis : Visibilities) :
  sim_transformer_class self (sim_uv_wavelengths self) (array_mask image)
  = Ok tr ->
  array_add image (background_sky_map_for self image) = Ok image' ->
  transformer_visibilities_from_image tr image' = Ok vis ->
  let level := match sim_noise_sigma self with
               | Some sigma => sigma
               | None => sim_noise_if_add_noise_false self
               end in
  let data := match sim_noise_sigma self with
              | Some sigma => noise vis sigma (sim_noise_seed self)
              | None => vis
              end in
  (from_image noise self image nm = Raise DataException
   <-> isnan level = true /\ data <> [])
  /\ (isnan level = false \/ data = [] ->
      from_image noise self image nm
      = Ok {| visibilities := data;
              noise_map := Visibilities_full level (length data);
              uv_wavelengths := transformer_uv_wavelengths tr;
              positions := None;
              name := nm |}).
Proof.
  intros Htr Hadd Hvis level data.
  assert (E : from_image noise self image nm
              = if any_isnan (Visibilities_full level (length data))
                then Raise DataException
                else Ok {| visibilities := data;
                           noise_map := Visibilities_full level (length data);
                           uv_wavelengths := transformer_uv_wavelengths tr;
                           positions := None;
                           name := nm |}).
  { unfold from_image, level, data. rewrite Htr. simpl bind.
    rewrite Hadd. simpl bind. rewrite Hvis. simpl bind.
    destruct (sim_noise_sigma self); reflexivity. }
  rewrite E, any_isnan_full_cases. clear E.
  destruct (isnan level) eqn:Hnan, data as [|d data'] eqn:Hdata; simpl.
  - split; [split; [intros H; discriminate H | intros [_ H]; congruence]|].
    intros _. reflexivity.
  - split; [split; [intros _; split; [reflexivity | discriminate]
                   | reflexivity]|].
    intros [H|H]; discriminate H.
  - split; [split; [intros H; discriminate H | intros [H _]; discriminate H]|].
    intros _. reflexivity.
  - split; [split; [intros H; discriminate H | intros [H _]; discriminate H]|].
    intros _. reflexivity.
Qed.

Lemma from_image_nan_guard_witness :
  from_image Samples.no_noise Samples.nan_simulator Samples.image_1x2 None
  = Raise DataException.
Proof.
  destruct (from_image_nan_guard Samples.no_noise Samples.nan_simulator
              Samples.image_1x2 _ None _ _ eq_refl eq_refl eq_refl)
    as [[_ H] _].
  apply H. split; [reflexivity | discriminate].
Defined.

(** ** The object store *)

Lemma alloc_fresh (h : gmap loc obj) (o : obj) : (alloc h o).2 ∉ dom h.
Proof. unfold alloc. simpl. apply is_fresh. Qed.

Lemma alloc_lookup (h : gmap loc obj) (o : obj) :
  (alloc h o).1 !! (alloc h o).2 = Some o.
Proof. unfold alloc. simpl. apply lookup_insert_eq. Qed.

Lemma alloc_subseteq (h : gmap loc obj) (o : obj) : h ⊆ (alloc h o).1.
Proof.
  unfold alloc. simpl. apply insert_subseteq.
  apply not_elem_of_dom, is_fresh.
Qed.

Lemma not_in_dom_weaken (h0 h : gmap loc obj) (l : loc) :
  h0 ⊆ h -> l ∉ dom h -> l ∉ dom h0.
Proof.
  intros Hsub Hl Hin. apply Hl. revert Hin.
  apply subseteq_dom in Hsub. set_solver.
Qed.

Lemma ndarray_values_weaken (h h' : gmap loc obj) (l : loc) (vals : list Q) :
  h ⊆ h' -> ndarray_values h l = Some vals -> ndarray_values h' l = Some vals.
Proof.
  intros Hsub. unfold ndarray_values.
  destruct (h !! l) as [[| b off len |]|] eqn:Hl; try discriminate.
  destruct (h !! b) as [[vs | |]|] eqn:Hb; try discriminate.
  rewrite (lookup_weaken _ _ _ _ Hl Hsub), (lookup_weaken _ _ _ _ Hb Hsub).
  trivial.
Qed.

Lemma buffer_of_weaken (h h' : gmap loc obj) (l : loc) :
  h ⊆ h' -> l ∈ dom h -> buffer_of h' l = buffer_of h l.
Proof.
  intros Hsub Hl. apply elem_of_dom in Hl as [o Ho]. unfold buffer_of.
  rewrite (lookup_weaken _ _ _ _ Ho Hsub), Ho. reflexivity.
Qed.

(** An array and the buffer behind it are objects of the store. *)
Lemma is_ndarray_dom (h : gmap loc obj) (l : loc) :
  is_ndarray h l ->
  l ∈ dom h /\ forall b, b ∈ buffer_of h l -> b ∈ dom h.
Proof.
  intros [vals H]. unfold ndarray_values, buffer_of in *.
  destruct (h !! l) as [[| b off len |]|] eqn:Hl; try discriminate.
  destruct (h !! b) as [[vs | |]|] eqn:Hb; try discriminate.
  split; [apply elem_of_dom; eauto|].
  intros b0 Hb0. apply list_elem_of_singleton in Hb0 as ->.
  apply elem_of_dom; eauto.
Qed.

Lemma fresh_copy_weaken (h0 h h' : gmap loc obj) (l l' : loc) :
  h ⊆ h' -> fresh_copy h0 h l l' -> fresh_copy h0 h' l l'.
Proof.
  intros Hsub (Hl' & (vals & Hv & Hv') & Hb).
  split; [assumption|]. split.
  - exists vals. split; [assumption|].
    eapply ndarray_values_weaken; eassumption.
  - intros b. rewrite (buffer_of_weaken h h' l' Hsub); [apply Hb|].
    apply (proj1 (is_ndarray_dom h l' (ex_intro _ vals Hv'))).
Qed.

Lemma copy_inv_start (h : gmap loc obj) : copy_inv h h ∅.
Proof.
  split; [reflexivity|]. intros l l' H. rewrite lookup_empty in H.
  discriminate.
Qed.

(** One step of the deep copy keeps the invariant, only extends the memo,
    and records the copy it returns. *)
Lemma deepcopy_ndarray_spec (h0 h : gmap loc obj) (memo : gmap loc loc)
    (l : loc) :
  copy_inv h0 h memo ->
  is_ndarray h0 l ->
  exists h' memo' l',
    deepcopy_ndarray h memo l = Some (h', memo', l')
    /\ copy_inv h0 h' memo'
    /\ memo ⊆ memo'
    /\ memo' !! l = Some l'.
Proof.
  intros [Hsub Hmemo] [vals Hl]. unfold deepcopy_ndarray.
  destruct (memo !! l) as [l0|] eqn:Hm.
  - exists h, memo, l0.
    split; [reflexivity|]. split; [split; assumption|].
    split; [reflexivity | assumption].
  - rewrite (ndarray_values_weaken h0 h l vals Hsub Hl). simpl.
    unfold alloc.
    set (b' := fresh (dom h)).
    set (h1 := <[b' := OBuffer vals]> h).
    set (l' := fresh (dom h1)).
    set (h2 := <[l' := ONdarray b' 0 (length vals)]> h1).
    assert (Hb' : b' ∉ dom h) by apply is_fresh.
    assert (Hl' : l' ∉ dom h1) by apply is_fresh.
    assert (S1 : h ⊆ h1) by (apply insert_subseteq, not_elem_of_dom, Hb').
    assert (S2 : h1 ⊆ h2) by (apply insert_subseteq, not_elem_of_dom, Hl').
    assert (S : h ⊆ h2) by (etransitivity; eassumption).
    assert (Hne : l' <> b').
    { intros E. apply Hl'. rewrite E. unfold h1.
      apply elem_of_dom. rewrite lookup_insert_eq. eauto. }
    assert (Hat : h2 !! l' = Some (ONdarray b' 0 (length vals)))
      by apply lookup_insert_eq.
    assert (Hbuf : h2 !! b' = Some (OBuffer vals)).
    { unfold h2. rewrite lookup_insert_ne by assumption.
      apply lookup_insert_eq. }
    exists h2, (<[l := l']> memo), l'.
    split; [reflexivity|]. split; [split|split].
    + etransitivity; eassumption.
    + intros l1 l1' H1.
      destruct (decide (l = l1)) as [<-|Hn].
      * rewrite lookup_insert_eq in H1. injection H1 as <-.
        split; [exact (not_in_dom_weaken h0 h1 l'
                         (transitivity Hsub S1) Hl')|].
        split.
        -- exists vals. split; [assumption|].
           unfold ndarray_values. rewrite Hat, Hbuf.
           rewrite drop_0, firstn_all. reflexivity.
        -- intros b. unfold buffer_of. rewrite Hat.
           intros Hb. apply list_elem_of_singleton in Hb as ->.
           exact (not_in_dom_weaken h0 h b' Hsub Hb').
      * rewrite lookup_insert_ne in H1 by assumption.
        exact (fresh_copy_weaken h0 h h2 l1 l1' S (Hmemo _ _ H1)).
    + apply insert_subseteq, Hm.
    + apply lookup_insert_eq.
Qed.

Lemma deepcopy_optional_spec (h0 h : gmap loc obj) (memo : gmap loc loc)
    (p : option loc) :
  copy_inv h0 h memo ->
  (forall q, p = Some q -> is_ndarray h0 q) ->
  exists h' memo' p',
    deepcopy_optional h memo p = Some (h', memo', p')
    /\ copy_inv h0 h' memo'
    /\ memo ⊆ memo'
    /\ match p, p' with
       | Some q, Some q' => memo' !! q = Some q'
       | None, None => True
       | _, _ => False
       end.
Proof.
  intros Hinv Hp. destruct p as [q|]; simpl.
  - destruct (deepcopy_ndarray_spec h0 h memo q Hinv (Hp q eq_refl))
      as (h' & memo' & q' & E & Hinv' & Hsub & Hq).
    rewrite E. simpl. exists h', memo', (Some q').
    split; [reflexivity|]. split; [assumption|]. split; assumption.
  - exists h, memo, None.
    split; [reflexivity|]. split; [assumption|]. split; [reflexivity|exact I].
Qed.

(** What a memo entry says once the copy is finished. *)
Lemma copy_inv_entry (h0 h : gmap loc obj) (memo memo' : gmap loc loc)
    (l l' : loc) :
  copy_inv h0 h memo' -> memo ⊆ memo' -> memo !! l = Some l' ->
  fresh_copy h0 h l l'.
Proof.
  intros [_ Hmemo] Hsub Hl.
  exact (Hmemo l l' (lookup_weaken _ _ _ _ Hl Hsub)).
Qed.

(** The deep copy of a dataset: a new dataset object on top of a store
    [hc] that extends the original one with copies of the arrays made of
    new objects. *)
Lemma deepcopy_interferometer_spec (h : gmap loc obj) (self d n u : loc)
    (p : option loc) (nm : option string) :
  h !! self = Some (OInterferometer d n u p nm) ->
  is_ndarray h d -> is_ndarray h n -> is_ndarray h u ->
  (forall q, p = Some q -> is_ndarray h q) ->
  exists hc r d' n' u' p',
    deepcopy_interferometer h self
    = Some (<[r := OInterferometer d' n' u' p' nm]> hc, r)
    /\ h ⊆ hc
    /\ (r ∉ dom hc)
    /\ fresh_copy h hc d d'
    /\ fresh_copy h hc n n'
    /\ fresh_copy h hc u u'
    /\ same_optional h hc p p'.
Proof.
  intros Hself Hd Hn Hu Hp.
  unfold deepcopy_interferometer. rewrite Hself.
  destruct (deepcopy_ndarray_spec h h ∅ d (copy_inv_start h) Hd)
    as (h1 & m1 & d' & E1 & I1 & S1 & M1).
  rewrite E1. simpl.
  destruct (deepcopy_ndarray_spec h h1 m1 n I1 Hn)
    as (h2 & m2 & n' & E2 & I2 & S2 & M2).
  rewrite E2. simpl.
  destruct (deepcopy_optional_spec h h2 m2 p I2 Hp)
    as (h3 & m3 & p' & E3 & I3 & S3 & M3).
  rewrite E3. simpl.
  destruct (deepcopy_ndarray_spec h h3 m3 u I3 Hu)
    as (h4 & m4 & u' & E4 & I4 & S4 & M4).
  rewrite E4. simpl.
  exists h4, (fresh (dom h4)), d', n', u', p'.
  split; [reflexivity|].
  split; [apply I4|].
  split; [apply is_fresh|].
  assert (S14 : m1 ⊆ m4) by (do 2 (etransitivity; [eassumption|]); assumption).
  assert (S24 : m2 ⊆ m4) by (etransitivity; eassumption).
  split; [exact (copy_inv_entry h h4 m1 m4 d d' I4 S14 M1)|].
  split; [exact (copy_inv_entry h h4 m2 m4 n n' I4 S24 M2)|].
  split; [exact (copy_inv_entry h h4 m4 m4 u u' I4 (reflexivity _) M4)|].
  unfold same_optional. destruct p as [q|], p' as [q'|]; try exact M3.
  exact (copy_inv_entry h h4 m3 m4 q q' I4 S4 M3).
Qed.

Lemma refs_weaken (h h' : gmap loc obj) (l d n u : loc) (p : option loc)
    (nm : option string) :
  h ⊆ h' -> h !! l = Some (OInterferometer d n u p nm) ->
  refs h' l = refs h l.
Proof.
  intros Hsub Hl. unfold refs.
  rewrite (lookup_weaken _ _ _ _ Hl Hsub), Hl. reflexivity.
Qed.

(** The state of a dataset whose attributes are arrays lies in the
    store. *)
Lemma state_in_dom (h : gmap loc obj) (self d n u : loc) (p : option loc)
    (nm : option string) :
  h !! self = Some (OInterferometer d n u p nm) ->
  is_ndarray h d -> is_ndarray h n -> is_ndarray h u ->
  (forall q, p = Some q -> is_ndarray h q) ->
  (forall x, x ∈ refs h self -> is_ndarray h x)
  /\ (forall l, l ∈ state h self -> l ∈ dom h).
Proof.
  intros Hself Hd Hn Hu Hp.
  assert (Hrefs : forall x, x ∈ refs h self -> is_ndarray h x).
  { intros x. unfold refs. rewrite Hself. rewrite !elem_of_cons.
    intros [->|[->|[->|Hx]]]; try assumption.
    destruct p as [q|].
    - apply list_elem_of_singleton in Hx as ->. apply Hp. reflexivity.
    - apply elem_of_nil in Hx. contradiction. }
  split; [exact Hrefs|].
  intros l. unfold state. rewrite elem_of_app, list_elem_of_bind.
  intros [Hl|(x & Hl & Hx)].
  - apply (proj1 (is_ndarray_dom h l (Hrefs l Hl))).
  - apply (proj2 (is_ndarray_dom h x (Hrefs x Hx)) l Hl).
Qed.

(** A larger store leaves that state as it is. *)
Lemma state_weaken (h h' : gmap loc obj) (self d n u : loc) (p : option loc)
    (nm : option string) (l : loc) :
  h ⊆ h' ->
  h !! self = Some (OInterferometer d n u p nm) ->
  is_ndarray h d -> is_ndarray h n -> is_ndarray h u ->
  (forall q, p = Some q -> is_ndarray h q) ->
  l ∈ state h' self -> l ∈ state h self.
Proof.
  intros Hsub Hself Hd Hn Hu Hp.
  destruct (state_in_dom h self d n u p nm Hself Hd Hn Hu Hp) as [Hrefs _].
  unfold state. rewrite (refs_weaken h h' self d n u p nm Hsub Hself).
  rewrite !elem_of_app, !list_elem_of_bind.
  intros [Hl|(x & Hl & Hx)]; [left; assumption|].
  right. exists x. split; [|assumption].
  rewrite <- (buffer_of_weaken h h' x Hsub); [assumption|].
  apply (proj1 (is_ndarray_dom h x (Hrefs x Hx))).
Qed.

Example modified_visibilities_new_array :
  exists h',
    modified_visibilities_from_visibilities
      Samples.store_with_new_visibilities 7%positive 9%positive
    = Some (h', 16%positive)
    /\ h' !! 16%positive
       = Some (OInterferometer 9%positive 13%positive 15%positive None
                 (Some "sma"))
    /\ ndarray_values h' 13%positive = Some [0.1%Q]
    /\ buffer_of h' 13%positive = [12%positive]
    /\ h' !! 7%positive
       = Some (OInterferometer 4%positive 5%positive 6%positive None
                 (Some "sma")).
Proof. eexists. repeat split; vm_compute; reflexivity. Qed.

(** The copy of a view owns its buffer, which holds what the view
    showed. *)
Example deepcopy_of_view :
  exists h',
    deepcopy_ndarray Samples.store_with_view ∅ 8%positive
    = Some (h', {[ 8%positive := 10%positive ]}, 10%positive)
    /\ h' !! 10%positive = Some (ONdarray 9%positive 0 1)
    /\ h' !! 9%positive = Some (OBuffer [0%Q])
    /\ ndarray_values Samples.store_with_view 8%positive = Some [0%Q].
Proof. eexists. repeat split; vm_compute; reflexivity. Qed.

(** Called with a view of the dataset's visibilities, an array that is
    none of the dataset's own, the method returns a dataset that works on
    the original's data buffer. *)
Example modified_visibilities_shares_view_buffer :
  exists h' r,
    modified_visibilities_from_visibilities Samples.store_with_view
      7%positive 8%positive = Some (h', r)
    /\ (8%positive ∉ refs Samples.store_with_view 7%positive)
    /\ 1%positive ∈ state h' r
    /\ 1%positive ∈ state h' 7%positive.
Proof.
  eexists. eexists.
  split; [vm_compute; reflexivity|].
  split.
  { vm_compute. intros H.
    repeat (apply elem_of_cons in H as [H|H]; [discriminate H|]).
    apply elem_of_nil in H. exact H. }
  split; vm_compute.
  - do 3 apply list_elem_of_further. apply list_elem_of_here.
  - do 3 apply list_elem_of_further. apply list_elem_of_here.
Qed.

(** C6, refuted as stated: called with the dataset's own visibilities, the
    method returns a dataset that holds the very array the original holds,
    so the two share mutable state. *)
Lemma modified_visibilities_shares_argument :
  exists h' r,
    modified_visibilities_from_visibilities Samples.store_one_dataset
      7%positive 4%positive = Some (h', r)
    /\ r <> 7%positive
    /\ shares_state h' r 7%positive.
Proof.
  eexists. exists 14%positive.
  split; [vm_compute; reflexivity|].
  split; [discriminate|].
  exists 4%positive. split; vm_compute; apply list_elem_of_here.
Qed.

(** C6, amended: for a dataset whose attributes are arrays and an argument
    that is an array, the method returns a new dataset whose visibilities
    are the argument itself (stored by reference, not copied) and whose
    noise map, uv wavelengths and positions are copies, made of new
    objects only, that show the values of the original's, with the
    original's name; the original and every object of the store are left
    unchanged; every array or buffer in the state of the result is the
    argument, the argument's buffer, or new, so the result shares no
    mutable state with the original unless the argument is one of the
    original's own arrays or works on the data buffer of one (a view). *)
Theorem modified_visibilities_from_visibilities_frame
    (h : gmap loc obj) (self v d n u : loc) (p : option loc)
    (nm : option string) :
  h !! self = Some (OInterferometer d n u p nm) ->
  is_ndarray h d -> is_ndarray h n -> is_ndarray h u ->
  (forall q, p = Some q -> is_ndarray h q) ->
  is_ndarray h v ->
  exists h' r n' u' p',
    modified_visibilities_from_visibilities h self v = Some (h', r)
    /\ h' !! r = Some (OInterferometer v n' u' p' nm)
    /\ fresh_copy h h' n n'
    /\ fresh_copy h h' u u'
    /\ same_optional h h' p p'
    /\ h ⊆ h'
    /\ (r ∉ dom h)
    /\ (forall l, l ∈ state h' r ->
          l = v \/ l ∈ buffer_of h v \/ (l ∉ dom h))
    /\ ((v ∉ state h self) ->
        (forall b, b ∈ buffer_of h v -> b ∉ state h self) ->
        ~ shares_state h' r self).
Proof.
  intros Hself Hd Hn Hu Hp Hv.
  destruct (deepcopy_interferometer_spec h self d n u p nm Hself Hd Hn Hu Hp)
    as (hc & r & d' & n' & u' & p' & E & Hsub & Hr & _ & Hn' & Hu' & Hopt).
  unfold modified_visibilities_from_visibilities. rewrite E. simpl.
  unfold set_data. rewrite lookup_insert_eq. simpl. rewrite insert_insert_eq.
  set (new := OInterferometer v n' u' p' nm).
  assert (Hext : hc ⊆ <[r := new]> hc)
    by (apply insert_subseteq, not_elem_of_dom, Hr).
  assert (Hall : h ⊆ <[r := new]> hc) by (etransitivity; eassumption).
  assert (Hn2 : fresh_copy h (<[r := new]> hc) n n')
    by exact (fresh_copy_weaken h hc _ n n' Hext Hn').
  assert (Hu2 : fresh_copy h (<[r := new]> hc) u u')
    by exact (fresh_copy_weaken h hc _ u u' Hext Hu').
  assert (Hopt2 : same_optional h (<[r := new]> hc) p p').
  { unfold same_optional in *.
    destruct p as [q|], p' as [q'|]; try assumption.
    exact (fresh_copy_weaken h hc _ q q' Hext Hopt). }
  assert (Hstate : forall l, l ∈ state (<[r := new]> hc) r ->
                     l = v \/ l ∈ buffer_of h v \/ (l ∉ dom h)).
  { assert (Hin : forall x, x ∈ refs (<[r := new]> hc) r ->
                    x = v \/ exists y, fresh_copy h (<[r := new]> hc) y x).
    { intros x. unfold refs. rewrite lookup_insert_eq. unfold new.
      rewrite !elem_of_cons. intros [->|[->|[->|Hx]]]; eauto.
      unfold same_optional in Hopt2.
      destruct p as [q|], p' as [q'|]; try contradiction.
      - apply list_elem_of_singleton in Hx as ->. eauto.
      - apply elem_of_nil in Hx. contradiction. }
    intros l. unfold state. rewrite elem_of_app, list_elem_of_bind.
    intros [Hl|(x & Hl & Hx)].
    - destruct (Hin l Hl) as [->|(y & Hy & _)]; auto.
    - destruct (Hin x Hx) as [->|(y & _ & _ & Hy)].
      + right. left.
        rewrite <- (buffer_of_weaken h (<[r := new]> hc) v Hall);
          [assumption|].
        apply (proj1 (is_ndarray_dom h v Hv)).
      + right. right. apply Hy, Hl. }
  exists (<[r := new]> hc), r, n', u', p'.
  split; [reflexivity|].
  split; [apply lookup_insert_eq|].
  split; [assumption|].
  split; [assumption|].
  split; [assumption|].
  split; [assumption|].
  split; [exact (not_in_dom_weaken h hc r Hsub Hr)|].
  split; [exact Hstate|].
  intros Hv1 Hv2 (l & Hl1 & Hl2).
  apply (state_weaken h (<[r := new]> hc) self d n u p nm l Hall Hself
           Hd Hn Hu Hp) in Hl2.
  destruct (Hstate l Hl1) as [->|[Hb|Hfresh]].
  - contradiction.
  - exact (Hv2 l Hb Hl2).
  - apply Hfresh.
    apply (state_in_dom h self d n u p nm Hself Hd Hn Hu Hp), Hl2.
Qed.

Lemma modified_visibilities_from_visibilities_frame_witness :
  exists h' r n' u' p',
    modified_visibilities_from_visibilities
      Samples.store_with_new_visibilities 7%positive 9%positive
    = Some (h', r)
    /\ h' !! r = Some (OInterferometer 9%positive n' u' p' (Some "sma"))
    /\ fresh_copy Samples.store_with_new_visibilities h' 5%positive n'
    /\ fresh_copy Samples.store_with_new_visibilities h' 6%positive u'
    /\ Samples.store_with_new_visibilities ⊆ h'
    /\ ~ shares_state h' r 7%positive.
Proof.
  destruct (modified_visibilities_from_visibilities_frame
              Samples.store_with_new_visibilities 7%positive 9%positive
              4%positive 5%positive 6%positive None (Some "sma"))
    as (h' & r & n' & u' & p' & E & Hr & Hn & Hu & _ & Hsub & _ & _ & Hsh).
  - vm_compute. reflexivity.
  - exists [1%Q; 0%Q]. vm_compute. reflexivity.
  - exists [0.1%Q]. vm_compute. reflexivity.
  - exists [7%Q; 8%Q]. vm_compute. reflexivity.
  - intros q Hq. discriminate Hq.
  - exists [2%Q; 2%Q]. vm_compute. reflexivity.
  - exists h', r, n', u', p'.
    repeat (split; [assumption|]).
    apply Hsh.
    + vm_compute. intros H.
      repeat (apply elem_of_cons in H as [H|H]; [discriminate H|]).
      apply elem_of_nil in H. exact H.
    + intros b Hb. vm_compute in Hb.
      apply list_elem_of_singleton in Hb as ->.
      vm_compute. intros H.
      repeat (apply elem_of_cons in H as [H|H]; [discriminate H|]).
      apply elem_of_nil in H. exact H.
Defined.

End InterferometerProps.

(* ===================================================================== *)
(** * Properties of autoarray/plot/wrap_mat/wrap_mat.py *)
(* ===================================================================== *)

Module WrapMatProps.
Import WrapMat.

(** ** Cmap *)

Example str_in_lin : str_in "lin" "linear" = true.
Proof. reflexivity. Qed.

Example str_in_log_linear : str_in "log" "linear" = false.
Proof. reflexivity. Qed.

Example str_in_symlog : str_in "symmetric_log" "log" = false.
Proof. reflexivity. Qed.

(** The two bounds [norm_from_array] settles on before it reads the
    normalisation name. *)
Lemma norm_from_array_linear (self : Cmap) (array : option (list Q))
    (lo hi : Q) :
  cmap_norm self = "linear" ->
  match cmap_vmin self with None => array_min array | Some x => Ok x end
  = Ok lo ->
  match cmap_vmax self with None => array_max array | Some x => Ok x end
  = Ok hi ->
  norm_from_array self array = Ok (Normalize lo hi).
Proof.
  intros Hn Hlo Hhi. unfold norm_from_array.
  rewrite Hlo, Hhi, Hn. reflexivity.
Qed.

Lemma norm_from_array_log (self : Cmap) (array : option (list Q))
    (lo hi : Q) :
  cmap_norm self = "log" ->
  match cmap_vmin self with None => array_min array | Some x => Ok x end
  = Ok lo ->
  match cmap_vmax self with None => array_max array | Some x => Ok x end
  = Ok hi ->
  norm_from_array self array
  = Ok (LogNorm (if Qeq_bool lo 0 then 1 # 10000 else lo) hi).
Proof.
  intros Hn Hlo Hhi. unfold norm_from_array.
  rewrite Hlo, Hhi, Hn. reflexivity.
Qed.

Lemma norm_from_array_symmetric_log (self : Cmap) (array : option (list Q))
    (lo hi : Q) :
  cmap_norm self = "symmetric_log" ->
  match cmap_vmin self with None => array_min array | Some x => Ok x end
  = Ok lo ->
  match cmap_vmax self with None => array_max array | Some x => Ok x end
  = Ok hi ->
  norm_from_array self array
  = Ok (SymLogNorm lo hi (cmap_linthresh self) (cmap_linscale self)).
Proof.
  intros Hn Hlo Hhi. unfold norm_from_array.
  rewrite Hlo, Hhi, Hn. reflexivity.
Qed.

(** A name raises exactly when it occurs in none of the three names. *)
Lemma norm_from_array_raises (self : Cmap) (array : option (list Q))
    (lo hi : Q) :
  match cmap_vmin self with None => array_min array | Some x => Ok x end
  = Ok lo ->
  match cmap_vmax self with None => array_max array | Some x => Ok x end
  = Ok hi ->
  (norm_from_array self array = Raise PlottingException
   <-> str_in (cmap_norm self) "linear" = false
       /\ str_in (cmap_norm self) "log" = false
       /\ str_in (cmap_norm self) "symmetric_log" = false).
Proof.
  intros Hlo Hhi. unfold norm_from_array. rewrite Hlo, Hhi. unfold bind.
  generalize (str_in (cmap_norm self) "linear"),
    (str_in (cmap_norm self) "log"),
    (str_in (cmap_norm self) "symmetric_log").
  intros [] [] []; cbv iota; split;
    solve [ intros H; discriminate H
          | intros (H1 & H2 & H3); discriminate
          | auto ].
Qed.

(** C7, the code at the failing input: the name [lin] is none of
    [linear], [log] and [symmetric_log], yet [norm_from_array] returns a
    linear [Normalize] instead of raising [PlottingException]. *)
Theorem norm_from_array_accepts_substring :
  cmap_norm Samples.cmap_lin <> "linear"
  /\ cmap_norm Samples.cmap_lin <> "log"
  /\ cmap_norm Samples.cmap_lin <> "symmetric_log"
  /\ norm_from_array Samples.cmap_lin None = Ok (Normalize 0 1).
Proof. repeat split; discriminate. Qed.

(** ** Colorbar *)

Example set_with_values_one_sided :
  Colorbar_set_with_values Samples.small_conf Samples.colorbar_values_only
    "jet" [1%Q; 2%Q]
  = Ok [CmScalarMappable "jet"; ScalarMappableSetArray [1%Q; 2%Q]].
Proof. reflexivity. Qed.

(** C10: with exactly one of the manual tick values and the manual tick
    labels supplied, [Colorbar.set_with_values] returns normally having made
    no drawing call, whereas [Colorbar.set] raises [PlottingException]. *)
Theorem set_with_values_silent_when_one_sided
    (conf_args : string -> string -> string) (self : Colorbar)
    (cmap : string) (color_values : list Q) :
  exactly_one_supplied self ->
  (exists calls,
      Colorbar_set_with_values conf_args self cmap color_values = Ok calls
      /\ forallb (fun c => negb (is_drawing_call c)) calls = true)
  /\ Colorbar_set conf_args self = Raise PlottingException.
Proof.
  unfold exactly_one_supplied, Colorbar_set_with_values, Colorbar_set.
  intros [[Hv Hl] | [Hv Hl]];
    destruct (manual_tick_values self), (manual_tick_labels self);
    try discriminate; try contradiction;
    (split; [eexists; split; reflexivity | reflexivity]).
Qed.

Lemma set_with_values_silent_when_one_sided_witness :
  (exists calls,
      Colorbar_set_with_values Samples.small_conf Samples.colorbar_values_only
        "jet" [1%Q; 2%Q] = Ok calls
      /\ forallb (fun c => negb (is_drawing_call c)) calls = true)
  /\ Colorbar_set Samples.small_conf Samples.colorbar_values_only
     = Raise PlottingException.
Proof.
  apply set_with_values_silent_when_one_sided.
  right. split; [discriminate | reflexivity].
Defined.

(** ** Ticks *)

Example tick_labels_kpc :
  tick_values_in_units_from None (2, 2) (-1)%Q 1%Q Samples.units_kpc false
  = Ok (Some (FloatLabels
                [(-200 # 100)%Q; (-100 # 100)%Q; (0 # 100)%Q; (100 # 100)%Q;
                 (200 # 100)%Q])).
Proof. vm_compute. reflexivity. Qed.

Example np_round2_ties :
  map np_round2 [0.125%Q; 0.135%Q; (-0.125)%Q; 2.5%Q]
  = [(12 # 100)%Q; (14 # 100)%Q; (-12 # 100)%Q; (250 # 100)%Q].
Proof. vm_compute. reflexivity. Qed.

(** The three outcomes when no manual values are given and the defaults
    are not requested. *)
Lemma tick_values_in_units_from_cases (shape_2d : nat * nat)
    (min_value max_value : Q) (units : Units) :
  tick_values_in_units_from None shape_2d min_value max_value units false
  = Ok (Some
          (if negb (use_scaled units) then
             IntLabels
               (map astype_int
                  (linspace5 0 (inject_Z (Z.of_nat (fst shape_2d)))))
           else
             match conversion_factor units with
             | Some factor =>
                 if truth_in_kpc units then
                   FloatLabels
                     (map np_round2
                        (linspace5 (min_value * factor) (max_value * factor)))
                 else FloatLabels (map np_round2 (linspace5 min_value max_value))
             | None => FloatLabels (map np_round2 (linspace5 min_value max_value))
             end)).
Proof.
  destruct units as [scaled [factor|] [[]|]]; destruct scaled; reflexivity.
Qed.

(** C8, refuted as stated: no units configuration makes the computation
    raise [PlottingException]; the tests before the final [else] are
    exhaustive. *)
Lemma tick_labels_error_unreachable :
  ~ exists (units : Units) (shape_2d : nat * nat) (min_value max_value : Q)
      (use_defaults : bool),
      tick_values_in_units_from None shape_2d min_value max_value units
        use_defaults = Raise PlottingException.
Proof.
  intros (units & shape_2d & min_value & max_value & [] & H).
  - discriminate H.
  - rewrite tick_values_in_units_from_cases in H. discriminate H.
Qed.

(** C8, amended: for every units configuration, with or without manual
    values, the computation returns (labels, or no value when the defaults
    are requested) and never raises; the branch raising
    [PlottingException] is unreachable. *)
Theorem tick_values_in_units_from_total (manual_values : option (list Q))
    (shape_2d : nat * nat) (min_value max_value : Q) (units : Units)
    (use_defaults : bool) :
  returns (tick_values_in_units_from manual_values shape_2d min_value
             max_value units use_defaults)
  /\ forall e,
       tick_values_in_units_from manual_values shape_2d min_value max_value
         units use_defaults <> Raise e.
Proof.
  assert (R : returns (tick_values_in_units_from manual_values shape_2d
                         min_value max_value units use_defaults)).
  { destruct use_defaults; [eexists; reflexivity|].
    destruct manual_values as [l|]; [eexists; reflexivity|].
    rewrite tick_values_in_units_from_cases. eexists; reflexivity. }
  split; [exact R|].
  intros e He. destruct R as [r Hr]. rewrite Hr in He. discriminate He.
Qed.

(** ** Keyword dictionaries *)

Example split_commas_example :
  split_commas (remove_spaces "fraction, pad") = ["fraction"; "pad"].
Proof. reflexivity. Qed.

Lemma list_to_map_omap_lookup (m : gmap string pyval) (args : list string)
    (key : string) :
  (key ∈ args ->
   (list_to_map
      (omap (fun k => match m !! k with
                      | Some v => Some (k, v)
                      | None => None
                      end) args) : gmap string pyval) !! key = m !! key)
  /\ (key ∉ args ->
      (list_to_map
         (omap (fun k => match m !! k with
                         | Some v => Some (k, v)
                         | None => None
                         end) args) : gmap string pyval) !! key = None).
Proof.
  induction args as [|a args [IHin IHout]]; simpl.
  - split; [intros H; apply elem_of_nil in H; contradiction|].
    intros _. apply lookup_empty.
  - destruct (m !! a) as [v|] eqn:Ha; simpl.
    + destruct (decide (key = a)) as [->|Hne].
      * rewrite lookup_insert_eq. split; [auto|].
        intros H. exfalso. apply H, list_elem_of_here.
      * rewrite lookup_insert_ne by congruence. split.
        -- intros [?|?]%elem_of_cons; [contradiction | auto].
        -- intros H. apply IHout. intros ?. apply H.
           apply list_elem_of_further. assumption.
    + split.
      * intros [->|?]%elem_of_cons; [|auto].
        rewrite Ha. destruct (decide (a ∈ args)) as [Hin|Hout].
        -- rewrite <- Ha. apply IHin, Hin.
        -- apply IHout, Hout.
      * intros H. apply IHout. intros ?. apply H.
        apply list_elem_of_further. assumption.
Qed.

(** X14: [kwargs_of_method] returns exactly the entries of the object's
    keywords whose names the configuration lists for the method (spaces in
    the list do not count); a listed name with no entry is left out rather
    than raising, and since the keywords are the configured defaults
    overridden by the constructor's arguments, an explicit argument wins
    over the default. *)
Theorem kwargs_of_method_lookup (conf_args : string -> string -> string)
    (config_dict kwargs : gmap string pyval) (method_name cls_name key : string) :
  kwargs_of_method conf_args (AbstractWrapMat_init config_dict kwargs)
    method_name cls_name !! key
  = if decide (key ∈ split_commas
                       (remove_spaces (conf_args cls_name method_name)))
    then match kwargs !! key with
         | Some v => Some v
         | None => config_dict !! key
         end
    else None.
Proof.
  unfold kwargs_of_method.
  destruct (list_to_map_omap_lookup
              (AbstractWrapMat_init config_dict kwargs)
              (split_commas (remove_spaces (conf_args cls_name method_name)))
              key) as [Hin Hout].
  case_decide as H; [rewrite (Hin H) | exact (Hout H)].
  unfold AbstractWrapMat_init. rewrite lookup_union.
  destruct (kwargs !! key), (config_dict !! key); reflexivity.
Qed.

(** ** Cmap bounds *)

(** X15: with both bounds set by hand [norm_from_array] never looks at the
    array (which may be [None]); with a bound left to the data, a missing
    array raises [AttributeError] and an empty array raises
    [ValueError]. *)
Theorem norm_from_array_bounds (self : Cmap) :
  (forall lo hi, cmap_vmin self = Some lo -> cmap_vmax self = Some hi ->
     forall array array',
       norm_from_array self array = norm_from_array self array')
  /\ (cmap_vmin self = None \/ cmap_vmax self = None ->
      norm_from_array self None = Raise AttributeError
      /\ norm_from_array self (Some []) = Raise ValueError).
Proof.
  unfold norm_from_array. split.
  - intros lo hi -> ->. reflexivity.
  - intros [H|H]; rewrite H; simpl;
      destruct (cmap_vmin self), (cmap_vmax self); split; reflexivity.
Qed.

Lemma norm_from_array_bounds_witness :
  norm_from_array Samples.cmap_lin None
  = norm_from_array Samples.cmap_lin (Some [])
  /\ norm_from_array Samples.cmap_auto None = Raise AttributeError
  /\ norm_from_array Samples.cmap_auto (Some []) = Raise ValueError.
Proof.
  destruct (norm_from_array_bounds Samples.cmap_lin) as [H1 _].
  destruct (norm_from_array_bounds Samples.cmap_auto) as [_ H2].
  split; [exact (H1 0%Q 1%Q eq_refl eq_refl None (Some []))|].
  exact (H2 (or_introl eq_refl)).
Defined.

(** ** Ticks *)

Lemma linspace_5 (a b : Q) : linspace a b 5 = linspace5 a b.
Proof. reflexivity. Qed.

Lemma length_linspace (a b : Q) (n : nat) : length (linspace a b n) = n.
Proof.
  destruct n as [|[|n]]; simpl; try reflexivity.
  rewrite length_app, length_map, length_seq. simpl. lia.
Qed.

Lemma linspace_ends (a b : Q) (n : nat) :
  2 <= n -> List.last (linspace a b n) a = b.
Proof.
  intros Hn. destruct n as [|[|n]]; try lia.
  unfold linspace. apply List.last_last.
Qed.

(** X16: [YTicks.set] and [XTicks.set] always hand matplotlib as many tick
    labels as tick positions: none of either when the defaults are asked
    for, one per manual value when manual values are given, five
    otherwise; and the positions end at [max_value] whenever there are at
    least two. *)
Theorem ticks_and_labels_agree (conf_args : string -> string -> string)
    (manual_values : option (list Q)) (kwargs : gmap string pyval)
    (shape_2d : nat * nat) (min_value max_value : Q) (units : Units)
    (use_defaults : bool) :
  exists ticks labels ky kx,
    YTicks_set conf_args manual_values kwargs shape_2d min_value max_value
      units use_defaults = Ok [PltYticks ticks labels ky]
    /\ XTicks_set conf_args manual_values kwargs shape_2d min_value max_value
         units use_defaults = Ok [PltXticks ticks labels kx]
    /\ match ticks, labels with
       | Some t, Some l =>
           use_defaults = false
           /\ length t = labels_length l
           /\ length t = match manual_values with
                         | Some m => length m
                         | None => 5
                         end
           /\ (2 <= length t -> List.last t min_value = max_value)
       | None, None => use_defaults = true
       | _, _ => False
       end.
Proof.
  unfold YTicks_set, XTicks_set, tick_values_from.
  destruct use_defaults.
  - simpl. do 4 eexists. repeat split.
  - destruct manual_values as [m|].
    + simpl. do 4 eexists. split; [reflexivity|]. split; [reflexivity|].
      rewrite length_linspace. repeat split.
      intros H. apply linspace_ends, H.
    + rewrite !tick_values_in_units_from_cases. unfold bind. cbn [negb].
      do 4 eexists. split; [reflexivity|]. split; [reflexivity|].
      split; [reflexivity|].
      split; [|split; [reflexivity|intros _; reflexivity]].
      destruct (use_scaled units); cbn [negb];
        [destruct (conversion_factor units);
         [destruct (truth_in_kpc units)|]|]; reflexivity.
Qed.

(** ** Axis labels *)

(** X17: the axis label is chosen from [in_kpc] before [use_scaled], the
    tick labels from [use_scaled] first: with pixel units
    ([use_scaled=False]) and [in_kpc] set, the ticks are pixel indices
    while the label reads [y (kpc)] or [y (arcsec)]. *)
Theorem pixel_ticks_under_scaled_label
    (conf_args : string -> string -> string) (self : Label) (units : Units)
    (shape_2d : nat * nat) (min_value max_value : Q) (b : bool) :
  label_cls self = YLabelClass ->
  label_units self = None ->
  manual_label self = None ->
  use_scaled units = false ->
  in_kpc units = Some b ->
  (exists pixels,
      tick_values_in_units_from None shape_2d min_value max_value units false
      = Ok (Some (IntLabels pixels)))
  /\ Label_set conf_args self units true
     = [PltYlabel (if b then "y (kpc)" else "y (arcsec)")
          (kwargs_label conf_args self)].
Proof.
  intros Hc Hu Hm Hs Hk. split.
  - rewrite tick_values_in_units_from_cases, Hs. eexists. reflexivity.
  - unfold Label_set, label_from_units. rewrite Hc, Hm, Hu, Hk.
    destruct b; reflexivity.
Qed.

Lemma pixel_ticks_under_scaled_label_witness :
  (exists pixels,
      tick_values_in_units_from None (4, 4) 0%Q 4%Q Samples.units_pixels_kpc
        false = Ok (Some (IntLabels pixels)))
  /\ Label_set Samples.small_conf
       (YLabel_sub Samples.empty_conf_dict None None)
       Samples.units_pixels_kpc true
     = [PltYlabel "y (kpc)"
          (kwargs_label Samples.small_conf
             (YLabel_sub Samples.empty_conf_dict None None))].
Proof.
  apply (pixel_ticks_under_scaled_label Samples.small_conf
           (YLabel_sub Samples.empty_conf_dict None None)
           Samples.units_pixels_kpc (4, 4) 0%Q 4%Q true); reflexivity.
Defined.

(** X18: [XLabel.sub] builds a [YLabel]: setting the object it returns
    labels the y axis (with the text [y (...)]) and never the x axis,
    unlike an [XLabel] built by its constructor. *)
Theorem XLabel_sub_sets_ylabel (conf_args : string -> string -> string)
    (conf_dict : string -> bool -> gmap string pyval)
    (units_name manual : option string) (units : Units)
    (include_brackets : bool) :
  XLabel_sub conf_dict units_name manual
  = YLabel_sub conf_dict units_name manual
  /\ (exists text kw,
         Label_set conf_args (XLabel_sub conf_dict units_name manual) units
           include_brackets = [PltYlabel text kw])
  /\ (exists text kw,
         Label_set conf_args
           (Label_new conf_dict XLabelClass units_name manual true ∅) units
           include_brackets = [PltXlabel text kw]).
Proof.
  split; [reflexivity|].
  unfold Label_set, XLabel_sub, Label_new. simpl.
  split; destruct manual, include_brackets; do 2 eexists; reflexivity.
Qed.

(** ** Output *)

Example path_join_examples :
  path_join (Some "plots") "a.png" = Ok "plots/a.png"
  /\ path_join (Some "plots/") "a.png" = Ok "plots/a.png"
  /\ path_join (Some "") "a.png" = Ok "a.png"
  /\ path_join (Some "plots") "/tmp/a.png" = Ok "/tmp/a.png".
Proof. repeat split. Qed.

(** X19: an output does nothing, silently, when it is bypassed, when its
    format is none of [show], [png] and [fits], and when the format is
    [fits] but there is no structure; [subplot_to_figure] never writes a
    FITS file, whatever the format. *)
Theorem output_silent_cases (self : Output) (has_structure : bool) :
  (output_bypass self = true -> to_figure self has_structure = Ok [])
  /\ (Output_format self <> "show" -> Output_format self <> "png" ->
      (Output_format self <> "fits" \/ has_structure = false) ->
      to_figure self has_structure = Ok [])
  /\ (Output_format self <> "show" -> Output_format self <> "png" ->
      subplot_to_figure self = Ok [])
  /\ (forall calls file,
        subplot_to_figure self = Ok calls ->
        StructureOutputToFits file ∉ calls).
Proof.
  unfold to_figure, subplot_to_figure.
  repeat apply conj.
  - intros ->. reflexivity.
  - intros Hs Hp Hf. apply AcsProps.str_eq_false in Hs, Hp.
    rewrite Hs, Hp.
    destruct (output_bypass self); simpl; [reflexivity|].
    destruct Hf as [Hf|Hf].
    + apply AcsProps.str_eq_false in Hf. rewrite Hf. reflexivity.
    + rewrite Hf. destruct (str_eq (Output_format self) "fits"); reflexivity.
  - intros Hs Hp. apply AcsProps.str_eq_false in Hs, Hp. rewrite Hs, Hp. reflexivity.
  - intros calls file.
    destruct (str_eq (Output_format self) "show").
    + intros [= <-]. intros [H|H]%elem_of_cons; [discriminate H|].
      apply elem_of_nil in H. exact H.
    + destruct (str_eq (Output_format self) "png").
      * destruct (path_join _ _); simpl; [|discriminate].
        intros [= <-]. intros [H|H]%elem_of_cons; [discriminate H|].
        apply elem_of_nil in H. exact H.
      * intros [= <-]. apply not_elem_of_nil.
Qed.

Lemma output_silent_cases_witness :
  to_figure {| output_path := None; output_filename := None;
               output_format := Some "pdf"; output_bypass := false |} true
  = Ok []
  /\ subplot_to_figure {| output_path := Some "plots";
                          output_filename := Some "fit";
                          output_format := Some "fits";
                          output_bypass := false |} = Ok [].
Proof.
  split.
  - apply (proj1 (proj2 (output_silent_cases
             {| output_path := None; output_filename := None;
                output_format := Some "pdf"; output_bypass := false |} true)));
      [discriminate | discriminate | left; discriminate].
  - apply (proj1 (proj2 (proj2 (output_silent_cases
             {| output_path := Some "plots"; output_filename := Some "fit";
                output_format := Some "fits"; output_bypass := false |} true))));
      discriminate.
Defined.

(** X20: a PNG output that is not bypassed raises [TypeError] when no
    path was given (the join of [None] with the file name), and when no
    file name was given it saves to the file literally named [None.png] in
    the path: the plotting function's name, which [filename_from_func]
    would supply, is not used. *)
Theorem output_png_without_path_or_name (self : Output) (has_structure : bool) :
  output_format self = Some "png" ->
  output_bypass self = false ->
  (output_path self = None ->
   to_figure self has_structure = Raise TypeError
   /\ subplot_to_figure self = Raise TypeError)
  /\ (forall p func_name,
        output_path self = Some p ->
        output_filename self = None ->
        exists file,
          path_join (Some p) "None.png" = Ok file
          /\ to_figure self has_structure = Ok [PltSavefig file]
          /\ subplot_to_figure self = Ok [PltSavefig file]
          /\ filename_from_func self func_name = func_name).
Proof.
  intros Hf Hb. unfold to_figure, subplot_to_figure, Output_format,
    filename_from_func.
  rewrite Hf, Hb. simpl. split.
  - intros ->. split; reflexivity.
  - intros p func_name Hp Hn. rewrite Hp, Hn.
    change (format_filename None ++ ".png") with "None.png".
    assert (Hj : exists file, path_join (Some p) "None.png" = Ok file).
    { unfold path_join.
      change (String.prefix "/" "None.png") with false. cbv iota.
      destruct (str_eq p "" || ends_with_slash p); eauto. }
    destruct Hj as [file Hj]. exists file. rewrite Hj.
    repeat split. exact Hj.
Qed.

Lemma output_png_without_path_or_name_witness :
  to_figure Samples.output_png_bare false = Raise TypeError
  /\ to_figure Samples.output_png_plots false
     = Ok [PltSavefig "plots/None.png"].
Proof.
  destruct (output_png_without_path_or_name Samples.output_png_bare false
              eq_refl eq_refl) as [H1 _].
  destruct (output_png_without_path_or_name Samples.output_png_plots false
              eq_refl eq_refl) as [_ H2].
  split; [exact (proj1 (H1 eq_refl))|].
  destruct (H2 "plots" "subplot" eq_refl eq_refl) as (file & Hj & Ht & _).
  rewrite Ht. injection Hj as <-. reflexivity.
Defined.

(** ** Figure *)

(** X21: [Figure.aspect_from_shape_2d] returns a configured number, and a
    string that does not occur in [square], unchanged and without looking
    at the shape; for the string [square] (and any string that occurs in
    it) it returns the ratio of the second to the first dimension, and
    raises [ZeroDivisionError] when the first dimension is 0. *)
Theorem aspect_from_shape_2d_cases (aspect : string + Q) (sh : nat * nat) :
  (forall x, aspect = inr x -> aspect_from_shape_2d aspect sh = Return (inr x))
  /\ (forall name, aspect = inl name -> str_in name "square" = false ->
        aspect_from_shape_2d aspect sh = Return (inl name))
  /\ (forall name, aspect = inl name -> str_in name "square" = true ->
        (fst sh = 0 -> aspect_from_shape_2d aspect sh = Throw ZeroDivisionError)
        /\ (fst sh <> 0 ->
            aspect_from_shape_2d aspect sh
            = Return (inr (inject_Z (Z.of_nat (snd sh))
                           / inject_Z (Z.of_nat (fst sh)))%Q))).
Proof.
  unfold aspect_from_shape_2d. repeat apply conj.
  - intros x ->. reflexivity.
  - intros name -> ->. reflexivity.
  - intros name -> ->. split; intros H.
    + rewrite H. reflexivity.
    + apply Nat.eqb_neq in H. rewrite H. reflexivity.
Qed.

Lemma aspect_from_shape_2d_cases_witness :
  aspect_from_shape_2d (inl "square") (0, 3) = Throw ZeroDivisionError
  /\ aspect_from_shape_2d (inl "square") (2, 3)
     = Return (inr (inject_Z 3 / inject_Z 2)%Q)
  /\ aspect_from_shape_2d (inl "auto") (0, 3) = Return (inl "auto").
Proof.
  destruct (aspect_from_shape_2d_cases (inl "square") (0, 3))
    as (_ & _ & H0).
  destruct (aspect_from_shape_2d_cases (inl "square") (2, 3))
    as (_ & _ & H1).
  destruct (aspect_from_shape_2d_cases (inl "auto") (0, 3))
    as (_ & H2 & _).
  split; [exact (proj1 (H0 "square" eq_refl eq_refl) eq_refl)|].
  split; [apply (proj2 (H1 "square" eq_refl eq_refl)); discriminate|].
  exact (H2 "auto" eq_refl eq_refl).
Defined.

End WrapMatProps.
